(** * rag-voice-assistant: catalog, reconciliation, answering and voice bridge

    A shallow embedding of the four Python sources

      - [app.py]            the Streamlit admin console and its SQLite helpers,
      - [api_server.py]     the FastAPI [/chat] endpoint,
      - [stt_tts_utils.py]  the speech-to-text / text-to-speech dispatch,
      - [ui_streamlit.py]   (only the way it consumes a transcript),

    followed by the properties of the specification that are settled on it.

    Python code is embedded as programs of a state-and-exception monad:
    the state holds what the code mutates or emits (the SQLite tables, the
    log of calls sent to a remote service, what was printed or rendered),
    and a result is either a value or a raised exception.  Everything the
    repository does not own (the OpenAI and Google SDKs, [hashlib],
    [uuid], the clock, [str.strip], [pydub]) is a parameter. *)

From Stdlib Require Import ZArith Strings.Byte.
From stdpp Require Import base decidable option list strings gmap sets sorting pretty.

(** ** Python values and effects *)

Module Py.

(** [bytes] objects. *)
Definition bytes : Type := list byte.

(** The exceptions that occur.  [Exception] stands for whatever an SDK or
    library call raises; the two script-control exceptions of Streamlit
    derive from [BaseException], so [except Exception] lets them through. *)
Inductive exn : Type :=
| Exception (msg : string)
| IntegrityError (msg : string)
| IndexError (msg : string)
| AttributeError (msg : string)
| HTTPException (status_code : Z) (detail : string)
| RerunException
| StopException.

Definition is_Exception (e : exn) : bool :=
  match e with
  | RerunException | StopException => false
  | _ => true
  end.

(** [str(e)], as the f-strings of the handlers print it. *)
Definition str (e : exn) : string :=
  match e with
  | Exception msg | IntegrityError msg | IndexError msg | AttributeError msg => msg
  | HTTPException status_code detail => pretty status_code +:+ ": " +:+ detail
  | RerunException | StopException => ""
  end.

Inductive result (A : Type) : Type :=
| Ok (a : A)
| Raise (e : exn).
Arguments Ok {A} a.
Arguments Raise {A} e.

(** A program over a state [S]: the state survives a raised exception, as
    a committed row or a sent request does. *)
Definition prog (S A : Type) : Type := S → result A * S.

#[global] Instance prog_ret {S} : MRet (prog S) := λ A a s, (Ok a, s).

#[global] Instance prog_bind {S} : MBind (prog S) := λ A B f m s,
  match m s with
  | (Ok a, s') => f a s'
  | (Raise e, s') => (Raise e, s')
  end.

Definition get {S} : prog S S := λ s, (Ok s, s).
Definition modify {S} (f : S → S) : prog S unit := λ s, (Ok tt, f s).
Definition raise {S A} (e : exn) : prog S A := λ s, (Raise e, s).

(** [try: body  except Exception as e: handler e]. *)
Definition try_except {S A} (body : prog S A) (handler : exn → prog S A) : prog S A :=
  λ s,
    match body s with
    | (Ok a, s') => (Ok a, s')
    | (Raise e, s') => if is_Exception e then handler e s' else (Raise e, s')
    end.

(** [for x in xs: body x]. *)
Fixpoint for_each {S A} (xs : list A) (body : A → prog S unit) : prog S unit :=
  match xs with
  | [] => mret tt
  | x :: xs' => body x ;; for_each xs' body
  end.

(** A call of a library that either raises [Exception(msg)] or returns. *)
Definition lift {S A} (r : string + A) : prog S A :=
  match r with
  | inl msg => raise (Exception msg)
  | inr a => mret a
  end.

(** [sub in s] on strings. *)
Fixpoint contains (sub s : string) : bool :=
  String.prefix sub s ||
  match s with
  | EmptyString => false
  | String _ s' => contains sub s'
  end.

(** [sorted(xs)] on a list of [str]: code-point order, which on UTF-8 is
    the order of the encoded bytes. *)
Definition sorted (xs : list string) : list string := merge_sort String.le xs.

(** [x or d] for an optional string: [None] and [''] are both falsy. *)
Definition or_else (x : option string) (d : string) : string :=
  match x with
  | Some (String c s) => String c s
  | _ => d
  end.

(** Running a program: unfold the monad and compute. *)
Ltac run :=
  repeat (progress (unfold mbind, mret, prog_bind, prog_ret, get, modify, raise, lift,
                    try_except in *; cbn in *)).

End Py.
Import Py.

(** ** The SQLite catalog ([init_db] of app.py) *)

Module Catalog.

(** A row of [projects]: every column is [TEXT NOT NULL]. *)
Record project : Type := Project {
  project_id : string;
  project_name : string;
  vector_store_id : string;
  status : string;
  created_at : string;
  updated_at : string
}.

(** A row of [project_files]: [sha256] is the one nullable column. *)
Record project_file : Type := ProjectFile {
  file_project_id : string;
  file_id : string;
  filename : string;
  sha256 : option string;
  added_at : string
}.

Record database : Type := Database {
  projects : list project;
  project_files : list project_file
}.

#[global] Instance project_eq_dec : EqDecision project.
Proof. solve_decision. Defined.

#[global] Instance project_file_eq_dec : EqDecision project_file.
Proof. solve_decision. Defined.

#[global] Instance database_eq_dec : EqDecision database.
Proof. solve_decision. Defined.

(** What [CREATE TABLE IF NOT EXISTS] leaves in a new file. *)
Definition empty : database := Database [] [].

(** [ORDER BY col DESC] on a [TEXT] column (binary collation).  SQLite
    leaves the order of rows with equal keys open; the stable merge sort
    fixes one. *)
Definition desc {A} (col : A → string) : relation A := λ a b, String.le (col b) (col a).

#[global] Instance desc_dec {A} (col : A → string) : RelDecision (desc col).
Proof. intros a b. unfold desc. apply _. Defined.

Definition order_by_desc {A} (col : A → string) (rows : list A) : list A :=
  merge_sort (desc col) rows.

(** [INSERT INTO projects ... VALUES (...)] under [project_id PRIMARY KEY]
    and [vector_store_id UNIQUE]: a violated constraint raises
    [sqlite3.IntegrityError] and the table is left as it was. *)
Definition insert_project (p : project) (db : database) : result database :=
  if bool_decide (Exists (λ q, project_id q = project_id p) (projects db)) then
    Raise (IntegrityError "UNIQUE constraint failed: projects.project_id")
  else if bool_decide (Exists (λ q, vector_store_id q = vector_store_id p) (projects db)) then
    Raise (IntegrityError "UNIQUE constraint failed: projects.vector_store_id")
  else Ok (Database (projects db ++ [p]) (project_files db)).

(** [UPDATE projects SET project_name=?, updated_at=? WHERE project_id=?]. *)
Definition update_project_name (new_name ts pid : string) (db : database) : database :=
  Database
    ((λ p, if decide (project_id p = pid)
           then Project (project_id p) new_name (vector_store_id p) (status p) (created_at p) ts
           else p) <$> projects db)
    (project_files db).

(** [UPDATE projects SET status='archived', updated_at=? WHERE project_id=?]. *)
Definition update_project_archived (ts pid : string) (db : database) : database :=
  Database
    ((λ p, if decide (project_id p = pid)
           then Project (project_id p) (project_name p) (vector_store_id p) "archived" (created_at p) ts
           else p) <$> projects db)
    (project_files db).

(** [SELECT * FROM projects [WHERE status='active'] ORDER BY updated_at DESC]. *)
Definition select_projects (active_only : bool) (db : database) : list project :=
  order_by_desc updated_at
    (if active_only then filter (λ p, status p = "active") (projects db) else projects db).

(** [SELECT ... FROM project_files WHERE project_id=? ORDER BY added_at DESC]. *)
Definition select_project_files (pid : string) (db : database) : list project_file :=
  order_by_desc added_at (filter (λ r, file_project_id r = pid) (project_files db)).

(** [INSERT OR REPLACE INTO project_files ...] under
    [PRIMARY KEY (project_id, file_id)]: a row with the same key is deleted
    before the new one is inserted. *)
Definition insert_or_replace_project_file (r : project_file) (db : database) : database :=
  Database (projects db)
    (filter (λ q, ¬ (file_project_id q = file_project_id r ∧ file_id q = file_id r))
            (project_files db) ++ [r]).

(** [DELETE FROM project_files WHERE project_id=? AND file_id=?]. *)
Definition delete_project_file (pid fid : string) (db : database) : database :=
  Database (projects db)
    (filter (λ q, ¬ (file_project_id q = pid ∧ file_id q = fid)) (project_files db)).

(** [SELECT 1 FROM project_files WHERE project_id=? AND sha256=? LIMIT 1]
    followed by [fetchone() is not None]; a [NULL] hash matches nothing. *)
Definition exists_sha_in_project (pid sha : string) (db : database) : bool :=
  bool_decide (Exists (λ q, file_project_id q = pid ∧ sha256 q = Some sha) (project_files db)).

(** [SELECT vector_store_id FROM projects WHERE project_id=? AND status='active']
    followed by [fetchone()]. *)
Definition select_active_vector_store_id (pid : string) (db : database) : option string :=
  vector_store_id <$> head (filter (λ p, project_id p = pid ∧ status p = "active") (projects db)).

(** Two views of the tables in which the properties are stated: the
    projects bound to a vector store, and a project's rows that carry a
    given content hash. *)
Definition projects_bound_to (vs : string) (db : database) : list project :=
  filter (λ p, vector_store_id p = vs) (projects db).

(** The [UNIQUE] constraint on [vector_store_id], as a property of the table. *)
Definition unique_binding (db : database) : Prop :=
  NoDup (vector_store_id <$> projects db).

Definition rows_with_sha (pid sha : string) (db : database) : list project_file :=
  filter (λ q, file_project_id q = pid ∧ sha256 q = Some sha) (project_files db).

End Catalog.
Import Catalog.

(** ** The OpenAI SDK, as far as the repository calls it *)

Module OpenAI.

(** The requests the code sends. *)
Inductive call : Type :=
| vector_stores_create (name : string)
| files_create (file_name : string) (file_data : bytes) (purpose : string)
| vector_stores_file_batches_create (vector_store_id : string) (file_ids : list string)
| vector_stores_files_delete (vector_store_id : string) (file_id : string)
| vector_stores_files_list (vector_store_id : string) (limit : Z)
| responses_create (model instructions input : string) (file_search_vector_store_ids : list string).

(** An element of [vector_stores.files.list(...).data]. *)
Record vector_store_file : Type := VectorStoreFile { file_id : string }.

(** An annotation of [resp.output[*].content[*].annotations]. *)
Record annotation : Type := Annotation {
  ann_filename : string;
  ann_page : option Z;
  ann_quote : option string
}.

(** What [responses.create] returns: [output_text] is [None] when the
    attribute is missing or [None]. *)
Record response : Type := Response {
  output_text : option string;
  output : list (list (list annotation))
}.

(** The service: every answer may depend on the requests sent before, and
    is either an exception message or the value returned. *)
Class Client : Type := {
  on_vector_stores_create : list call → string → string + string;
  on_files_create : list call → string → bytes → string → string + string;
  on_file_batches_create : list call → string → list string → string + unit;
  on_files_delete : list call → string → string → string + unit;
  on_files_list : list call → string → Z → string + list vector_store_file;
  on_responses_create : list call → string → string → string → list string → string + response
}.

End OpenAI.

(** ** What Python and the host provide *)

Class Runtime : Type := {
  (** [hashlib.sha256(b).hexdigest()] *)
  sha256_hexdigest : bytes → string;
  (** [s.strip()] *)
  strip : string → string;
  (** [datetime.now(timezone.utc).isoformat()] at the n-th reading of the clock *)
  utcnow_isoformat : nat → string;
  (** [str(uuid.uuid4())] at the n-th draw *)
  uuid4 : nat → string;
  (** [os.getenv(name)] *)
  getenv : string → option string
}.

(** ** app.py: the admin console *)

Module App.

(** What Streamlit renders.  Only the calls that report an outcome are
    kept; titles, captions, dividers and column layout are left out. *)
Inductive element : Type :=
| st_success (body : string)
| st_error (body : string)
| st_info (body : string)
| st_warning (body : string)
| st_write (body : string)
| st_write_list (body : list string)
| st_dataframe (rows : list project_file).

(** The state the script runs on: the cached connection [conn], the
    requests sent through the cached [client], how often the clock and
    [uuid4] were read, the rendered page, and [st.session_state]. *)
Record world : Type := World {
  conn : database;
  calls : list OpenAI.call;
  clock_reads : nat;
  uuid_draws : nat;
  page : list element;
  selected_project_id : option string
}.

Definition set_conn (db : database) (w : world) : world :=
  World db (calls w) (clock_reads w) (uuid_draws w) (page w) (selected_project_id w).

Definition log_call (c : OpenAI.call) (w : world) : world :=
  World (conn w) (calls w ++ [c]) (clock_reads w) (uuid_draws w) (page w) (selected_project_id w).

Definition tick (w : world) : world :=
  World (conn w) (calls w) (S (clock_reads w)) (uuid_draws w) (page w) (selected_project_id w).

Definition draw (w : world) : world :=
  World (conn w) (calls w) (clock_reads w) (S (uuid_draws w)) (page w) (selected_project_id w).

Definition render (e : element) (w : world) : world :=
  World (conn w) (calls w) (clock_reads w) (uuid_draws w) (page w ++ [e]) (selected_project_id w).

Definition select (pid : option string) (w : world) : world :=
  World (conn w) (calls w) (clock_reads w) (uuid_draws w) (page w) pid.

Section Script.
Context `{Runtime} `{OpenAI.Client}.

Definition now_iso : prog world string :=
  λ w, (Ok (utcnow_isoformat (clock_reads w)), tick w).

Definition sha256_bytes (b : bytes) : string := sha256_hexdigest b.

Definition uuid_uuid4 : prog world string :=
  λ w, (Ok (uuid4 (uuid_draws w)), draw w).

(** A request to the service: it is logged, then it raises or returns. *)
Definition request {A} (c : OpenAI.call) (answer : list OpenAI.call → string + A) : prog world A :=
  λ w, lift (answer (calls w)) (log_call c w).

Definition st (e : element) : prog world unit := modify (render e).

(** [st.rerun()] and [st.stop()] end the script run. *)
Definition st_rerun {A} : prog world A := raise RerunException.
Definition st_stop {A} : prog world A := raise StopException.

(** *** DB helpers *)

Definition db_list_projects (active_only : bool) : prog world (list project) :=
  w ← get; mret (select_projects active_only (conn w)).

Definition db_create_project (name vector_store_id : string) : prog world string :=
  pid ← uuid_uuid4;
  ts ← now_iso;
  w ← get;
  match insert_project (Project pid name vector_store_id "active" ts ts) (conn w) with
  | Ok db => modify (set_conn db) ;; mret pid
  | Raise e => raise e
  end.

Definition db_rename_project (project_id new_name : string) : prog world unit :=
  ts ← now_iso;
  modify (λ w, set_conn (update_project_name new_name ts project_id (conn w)) w).

Definition db_archive_project (project_id : string) : prog world unit :=
  ts ← now_iso;
  modify (λ w, set_conn (update_project_archived ts project_id (conn w)) w).

Definition db_list_project_files (project_id : string) : prog world (list project_file) :=
  w ← get; mret (select_project_files project_id (conn w)).

Definition db_add_project_file (project_id file_id filename : string) (sha256 : option string)
  : prog world unit :=
  ts ← now_iso;
  modify (λ w, set_conn
    (insert_or_replace_project_file (ProjectFile project_id file_id filename sha256 ts) (conn w)) w).

Definition db_remove_project_file (project_id file_id : string) : prog world unit :=
  modify (λ w, set_conn (delete_project_file project_id file_id (conn w)) w).

Definition db_has_sha_in_project (project_id sha : string) : prog world bool :=
  w ← get; mret (exists_sha_in_project project_id sha (conn w)).

(** *** Widgets *)

(** [st.button(label, disabled=d)]: a disabled button is never clicked. *)
Definition button (clicked disabled : bool) : bool := clicked && negb disabled.

(** An element of what [st.file_uploader] returns. *)
Record uploaded_file : Type := UploadedFile { name : string; getvalue : bytes }.

(** Python truth of a [str] and of a list. *)
Definition truthy (s : string) : bool := negb (bool_decide (s = "")).
Definition nonempty {A} (l : list A) : bool := match l with [] => false | _ => true end.

(** *** Sidebar: create, rename, archive *)

Definition sidebar_create (new_name : string) (clicked : bool) : prog world unit :=
  if button clicked false then
    try_except
      (vs_id ← request (OpenAI.vector_stores_create (strip new_name))
                       (λ h, OpenAI.on_vector_stores_create h (strip new_name));
       pid ← db_create_project (strip new_name) vs_id;
       st (st_success ("已建立專案：" +:+ new_name +:+ " / VS=" +:+ vs_id)) ;;
       modify (select (Some pid)) ;;
       st_rerun)
      (λ e, st (st_error ("建立失敗：" +:+ str e)))
  else mret tt.

(** [[p for p in db_list_projects(active_only=False) if p["project_id"] == pid][0]] *)
Definition project_by_id (pid : string) : prog world project :=
  ps ← db_list_projects false;
  match filter (λ p, project_id p = pid) ps with
  | p :: _ => mret p
  | [] => raise (IndexError "list index out of range")
  end.

Definition sidebar_edit (rename_to : string) (rename_clicked confirm archive_clicked : bool)
  : prog world unit :=
  w ← get;
  match selected_project_id w with
  | Some (String c s) =>
      let pid := String c s in
      _ ← project_by_id pid;
      (if button rename_clicked false then
         db_rename_project pid (strip rename_to) ;;
         st (st_success "已更新") ;;
         st_rerun
       else mret tt) ;;
      (if button archive_clicked (negb confirm) then
         db_archive_project pid ;;
         st (st_success "已封存") ;;
         modify (select None) ;;
         st_rerun
       else mret tt)
  | _ => st (st_info "先選一個專案")
  end.

(** *** Tab 1: upload, add to the vector store, record the mapping *)

(** The body of [for uf in uploads]. *)
Definition upload_one (pid vs_id : string) (dedup : bool) (uf : uploaded_file) : prog world unit :=
  try_except
    (let data := getvalue uf in
     let sha := sha256_bytes data in
     skip ← (if dedup then db_has_sha_in_project pid sha else mret false);
     if skip : bool then
       st (st_info ("略過（同專案已存在相同內容）：" +:+ name uf))
     else
       f_id ← request (OpenAI.files_create (name uf) data "assistants")
                      (λ h, OpenAI.on_files_create h (name uf) data "assistants");
       request (OpenAI.vector_stores_file_batches_create vs_id [f_id])
               (λ h, OpenAI.on_file_batches_create h vs_id [f_id]) ;;
       db_add_project_file pid f_id (name uf) (Some sha) ;;
       st (st_success ("✅ " +:+ name uf +:+ " → file_id=" +:+ f_id +:+ "（已加入索引）")))
    (λ e, st (st_error ("❌ " +:+ name uf +:+ " 失敗：" +:+ str e))).

Definition tab_upload (pid vs_id : string) (uploads : list uploaded_file) (dedup do_clicked : bool)
  : prog world unit :=
  if button do_clicked (negb (nonempty uploads)) then
    for_each uploads (upload_one pid vs_id dedup)
  else mret tt.

(** *** Tab 2: list the mapping, remove a file from the project *)

Definition tab_list (pid vs_id : string) (file_id : string) (confirm remove_clicked : bool)
  : prog world unit :=
  rows ← db_list_project_files pid;
  (if nonempty rows then st (st_dataframe rows) else st (st_info "此專案尚未加入任何檔案。")) ;;
  if button remove_clicked (negb (truthy (strip file_id)) || negb confirm) then
    try_except
      (request (OpenAI.vector_stores_files_delete vs_id (strip file_id))
               (λ h, OpenAI.on_files_delete h vs_id (strip file_id)) ;;
       db_remove_project_file pid (strip file_id) ;;
       st (st_success "已從專案移除") ;;
       st_rerun)
      (λ e, st (st_error ("移除失敗：" +:+ str e)))
  else mret tt.

(** *** Tab 3: reconciliation of the local mapping with the vector store *)

Definition remote_file_ids (remote : list OpenAI.vector_store_file) : gset string :=
  list_to_set (OpenAI.file_id <$> remote).

Definition local_file_ids (local : list project_file) : gset string :=
  list_to_set (file_id <$> local).

(** [sorted(list(local_file_ids - remote_file_ids))] *)
Definition missing_in_remote (local : list project_file) (remote : list OpenAI.vector_store_file)
  : list string :=
  sorted (elements (local_file_ids local ∖ remote_file_ids remote)).

(** [sorted(list(remote_file_ids - local_file_ids))] *)
Definition missing_in_local (local : list project_file) (remote : list OpenAI.vector_store_file)
  : list string :=
  sorted (elements (remote_file_ids remote ∖ local_file_ids local)).

(** [st.write(ids if ids else "無")] *)
Definition ids_or_none (ids : list string) : element :=
  if nonempty ids then st_write_list ids else st_write "無".

Definition write_ids (ids : list string) : prog world unit := st (ids_or_none ids).

Definition repair_hint : string :=
  "你可以選擇把『OpenAI 有但 DB 沒有』的檔案補回 DB（只補 mapping，不影響 OpenAI）。".

Definition tab_sync (pid vs_id : string) (sync_clicked repair_clicked : bool) : prog world unit :=
  if button sync_clicked false then
    try_except
      (remote ← request (OpenAI.vector_stores_files_list vs_id 200)
                        (λ h, OpenAI.on_files_list h vs_id 200);
       local ← db_list_project_files pid;
       write_ids (missing_in_remote local remote) ;;
       write_ids (missing_in_local local remote) ;;
       if nonempty (missing_in_local local remote) then
         st (st_warning repair_hint) ;;
         if button repair_clicked false then
           for_each (missing_in_local local remote)
                    (λ fid, db_add_project_file pid fid fid None) ;;
           st (st_success "已補回 DB") ;;
           st_rerun
         else mret tt
       else mret tt)
      (λ e, st (st_error ("同步失敗：" +:+ str e)))
  else mret tt.

(** *** The main part of the script *)

Definition main (uploads : list uploaded_file) (dedup do_clicked : bool)
    (file_id : string) (confirm remove_clicked : bool)
    (sync_clicked repair_clicked : bool) : prog world unit :=
  w ← get;
  match selected_project_id w with
  | Some (String c s) =>
      let pid := String c s in
      project ← project_by_id pid;
      let vs_id := vector_store_id project in
      tab_upload pid vs_id uploads dedup do_clicked ;;
      tab_list pid vs_id file_id confirm remove_clicked ;;
      tab_sync pid vs_id sync_clicked repair_clicked
  | _ => st (st_warning "請先在左側選擇或建立專案。") ;; st_stop
  end.

End Script.
End App.

(** ** api_server.py: the answering endpoint *)

Module ApiServer.

(** The database file at [DB_PATH], when it exists (with the tables that
    app.py created), and the requests sent through the module's [client]. *)
Record world : Type := World {
  db_file : option database;
  calls : list OpenAI.call
}.

Definition log_call (c : OpenAI.call) (w : world) : world :=
  World (db_file w) (calls w ++ [c]).

Record ChatReq : Type := {
  project_id : string;
  user_id : string;
  message : string
}.

Record ChatResp : Type := {
  answer : string;
  citations : list (gmap string string)
}.

Definition INSTRUCTIONS : string :=
"你是一個企業對外的「專案 AI 助理」。

語言規則：
- 一律使用繁體中文回答。

資料規則：
- 只能依據 file_search 檢索到的文件內容回答。
- 不可以臆測、杜撰或補充文件沒有提到的資訊。
- 若文件中沒有相關資訊，請明確回答「文件未提供」，並說明需要哪類文件才能回答。

引用規則：
- 每個重點/結論都必須附「引用」：至少要能指出是哪些文件（檔名）支持該結論。
- 若無法找到對應依據，請不要產生結論。

建議回答格式：
1) 重點結論，150字內
".

Section Endpoints.
Context `{Runtime} `{OpenAI.Client}.

Definition OPENAI_MODEL : string := default "gpt-4.1-mini" (getenv "OPENAI_MODEL").
Definition DB_PATH : string := default "rag_admin.db" (getenv "RAG_DB_PATH").

Definition request {A} (c : OpenAI.call) (reply : list OpenAI.call → string + A) : prog world A :=
  λ w, lift (reply (calls w)) (log_call c w).

Definition get_conn : prog world database :=
  w ← get;
  match db_file w with
  | None => raise (HTTPException 500 ("DB file not found: " +:+ DB_PATH))
  | Some db => mret db
  end.

Definition get_vector_store_id (project_id : string) : prog world string :=
  conn ← get_conn;
  match select_active_vector_store_id project_id conn with
  | None =>
      raise (HTTPException 404 ("project_id not found or inactive: " +:+ project_id))
  | Some "" =>
      raise (HTTPException 500 ("vector_store_id is empty for project_id: " +:+ project_id))
  | Some vs_id => mret vs_id
  end.

(** [POST /chat] *)
Definition chat (req : ChatReq) : prog world ChatResp :=
  vs_id ← get_vector_store_id (project_id req);
  resp ← try_except
    (request (OpenAI.responses_create OPENAI_MODEL INSTRUCTIONS (message req) [vs_id])
             (λ h, OpenAI.on_responses_create h OPENAI_MODEL INSTRUCTIONS (message req) [vs_id]))
    (λ e, raise (HTTPException 500 ("OpenAI call failed: " +:+ str e)));
  let answer := or_else (OpenAI.output_text resp) "" in
  mret {| answer := answer; citations := [] |}.

End Endpoints.
End ApiServer.

(** ** stt_tts_utils.py: the voice bridge *)

Module SttTts.

(** Google Cloud Speech and Text-to-Speech messages. *)
Record RecognitionConfig : Type := {
  encoding : string;
  sample_rate_hertz : Z;
  language_code : string;
  enable_automatic_punctuation : bool
}.
Record alternative : Type := { transcript : string }.
Record speech_result : Type := { alternatives : list alternative }.
Record recognize_response : Type := { results : list speech_result }.
Record VoiceSelectionParams : Type := {
  voice_language_code : string;
  voice_name : option string
}.

(** OpenAI audio messages. *)
Record transcription : Type := { text : string }.

(** The [client] argument is whatever the caller passes: [None], one of
    the two Google clients, or the OpenAI client.  Each carries the way it
    answers: an exception message or the value returned. *)
Inductive client : Type :=
| NoClient
| SpeechClient (recognize : RecognitionConfig → bytes → string + recognize_response)
| TextToSpeechClient
    (synthesize_speech : string → VoiceSelectionParams → string → string + bytes)
| OpenAIClient
    (audio_transcriptions_create : string → bytes → string → string + transcription)
    (audio_speech_create : string → string → string → string + bytes).

(** The provider calls that were made. *)
Inductive invocation : Type :=
| recognize_call (config : RecognitionConfig) (content : bytes)
| synthesize_speech_call (input : string) (voice : VoiceSelectionParams) (audio_encoding : string)
| transcriptions_create_call (model : string) (file : bytes) (language : string)
| speech_create_call (model voice input : string).

Record world : Type := World {
  invoked : list invocation;
  stdout : list string
}.

Definition print (line : string) : prog world unit :=
  modify (λ w, World (invoked w) (stdout w ++ [line])).

(** A provider call: it is recorded, then it raises or returns. *)
Definition invoke {A} (c : invocation) (r : string + A) : prog world A :=
  λ w, lift r (World (invoked w ++ [c]) (stdout w)).

(** Attribute lookup on the client object. *)
Definition get_recognize (c : client) :=
  match c with
  | SpeechClient f => mret (M := prog world) f
  | _ => raise (AttributeError "object has no attribute 'recognize'")
  end.

Definition get_synthesize_speech (c : client) :=
  match c with
  | TextToSpeechClient f => mret (M := prog world) f
  | _ => raise (AttributeError "object has no attribute 'synthesize_speech'")
  end.

Definition get_audio_transcriptions (c : client) :=
  match c with
  | OpenAIClient f _ => mret (M := prog world) f
  | _ => raise (AttributeError "object has no attribute 'audio'")
  end.

Definition get_audio_speech (c : client) :=
  match c with
  | OpenAIClient _ g => mret (M := prog world) g
  | _ => raise (AttributeError "object has no attribute 'audio'")
  end.

(** [[f(x) for x in xs]] with a body that may raise. *)
Fixpoint comprehension {S A B} (f : A → prog S B) (xs : list A) : prog S (list B) :=
  match xs with
  | [] => mret []
  | x :: xs' => y ← f x; ys ← comprehension f xs'; mret (y :: ys)
  end.

Section Bridge.
(** [AudioSegment.from_file(io.BytesIO(b)).set_frame_rate(16000)
    .set_channels(1).set_sample_width(2).raw_data] of pydub. *)
Context (pydub_pcm_16k_mono_s16 : bytes → string + bytes).

Definition _google_stt (speech_client : client) (audio_bytes : bytes) (language_code : string)
  : prog world (option string) :=
  try_except
    (pcm_bytes ← lift (pydub_pcm_16k_mono_s16 audio_bytes);
     let config := {| encoding := "LINEAR16"; sample_rate_hertz := 16000;
                      language_code := language_code;
                      enable_automatic_punctuation := true |} in
     recognize ← get_recognize speech_client;
     response ← invoke (recognize_call config pcm_bytes) (recognize config pcm_bytes);
     match results response with
     | [] => mret None
     | rs =>
         ts ← comprehension
                (λ result, match alternatives result with
                           | a :: _ => mret (transcript a)
                           | [] => raise (IndexError "list index out of range")
                           end) rs;
         mret (Some (String.concat " " ts))
     end)
    (λ e, print ("Google STT Error: " +:+ str e) ;; mret None).

Definition _google_tts (tts_client : client) (text language_code : string)
    (voice_name : option string) : prog world (option bytes) :=
  try_except
    (let voice := match voice_name with
                  | Some (String c s) =>
                      {| voice_language_code := language_code; voice_name := Some (String c s) |}
                  | _ => {| voice_language_code := language_code; voice_name := None |}
                  end in
     synthesize_speech ← get_synthesize_speech tts_client;
     audio_content ← invoke (synthesize_speech_call text voice "MP3")
                            (synthesize_speech text voice "MP3");
     mret (Some audio_content))
    (λ e, print ("Google TTS Error: " +:+ str e) ;; mret None).

Definition _openai_stt (client : client) (audio_bytes : bytes) (language_code : string)
  : prog world (option string) :=
  try_except
    (let iso_lang :=
       if contains "zh" language_code || contains "cmn" language_code then "zh" else "en" in
     create ← get_audio_transcriptions client;
     transcript ← invoke (transcriptions_create_call "whisper-1" audio_bytes iso_lang)
                         (create "whisper-1" audio_bytes iso_lang);
     mret (Some (text transcript)))
    (λ e, print ("OpenAI STT Error: " +:+ str e) ;; mret None).

Definition _openai_tts (client : client) (text : string) (voice_name : option string)
  : prog world (option bytes) :=
  try_except
    (let voice := or_else voice_name "alloy" in
     create ← get_audio_speech client;
     content ← invoke (speech_create_call "tts-1" voice text) (create "tts-1" voice text);
     mret (Some content))
    (λ e, print ("OpenAI TTS Error: " +:+ str e) ;; mret None).

Definition speech_to_text (client : client) (audio_bytes : bytes)
    (provider language_code : string) : prog world (option string) :=
  if decide (provider = "google") then _google_stt client audio_bytes language_code
  else if decide (provider = "openai") then _openai_stt client audio_bytes language_code
  else mret None.

Definition text_to_speech (client : client) (text : string)
    (provider language_code : string) (voice_name : option string)
  : prog world (option bytes) :=
  if decide (provider = "google") then _google_tts client text language_code voice_name
  else if decide (provider = "openai") then _openai_tts client text voice_name
  else mret None.

End Bridge.

(** ui_streamlit.py, [if transcript: final_prompt = transcript  else: st.warning(...)]:
    the caller takes [None] and [''] alike as nothing recognised. *)
Definition final_prompt (transcript : option string) : option string :=
  match transcript with
  | Some (String c s) => Some (String c s)
  | _ => None
  end.

End SttTts.

(** ** ui_streamlit.py: the chat page that calls the endpoint and the voice bridge *)

Module UiStreamlit.

(** The options of the selectbox "STT/TTS 服務商". *)
Inductive provider : Type := Google | OpenAI.

(** [stt_provider.lower()] *)
Definition provider_code (p : provider) : string :=
  match p with
  | Google => "google"
  | OpenAI => "openai"
  end.

(** An entry of [st.session_state.history]. *)
Record history_item : Type := HistoryItem {
  role : string;
  content : string;
  audio : option bytes
}.

(** What the page renders; chat bubbles and spinners are left out. *)
Inductive element : Type :=
| st_warning (body : string)
| st_markdown (body : string)
| st_caption (body : string)
| st_error (body : string)
| st_audio (data : bytes).

(** The JSON body of the endpoint's answer, as far as the page reads it:
    an absent key is [None]. *)
Record citation : Type := {
  filename : option string;
  page_no : option Z;
  quote : option string
}.

Record chat_json : Type := {
  answer : option string;
  citations : list citation
}.

(** [requests.post(url, json=payload, timeout=60)] *)
Record payload : Type := {
  project_id : string;
  message : string;
  user_id : string
}.

Record post : Type := Post {
  url : string;
  json : payload;
  timeout : Z
}.

(** The state of a script run: the voice bridge's world, the session's
    [last_audio_bytes] ([None] while the key is not in the session, then
    [Some None] or [Some (Some b)]), the history, the rendered page and
    the posts sent. *)
Record world : Type := World {
  voice : SttTts.world;
  last_audio_bytes : option (option bytes);
  history : list history_item;
  page : list element;
  posts : list post
}.

Definition set_voice (v : SttTts.world) (w : world) : world :=
  World v (last_audio_bytes w) (history w) (page w) (posts w).

Definition set_last_audio_bytes (b : option bytes) (w : world) : world :=
  World (voice w) (Some b) (history w) (page w) (posts w).

Definition history_append (m : history_item) (w : world) : world :=
  World (voice w) (last_audio_bytes w) (history w ++ [m]) (page w) (posts w).

Definition render (e : element) (w : world) : world :=
  World (voice w) (last_audio_bytes w) (history w) (page w ++ [e]) (posts w).

Definition log_post (p : post) (w : world) : world :=
  World (voice w) (last_audio_bytes w) (history w) (page w) (posts w ++ [p]).

(** A call into stt_tts_utils, run on the bridge's part of the world. *)
Definition bridge {A} (m : prog SttTts.world A) : prog world A :=
  λ w, let '(r, v) := m (voice w) in (r, set_voice v w).

(** Python truth of the client objects and of [bytes]. *)
Definition client_truthy (c : SttTts.client) : bool :=
  match c with
  | SttTts.NoClient => false
  | _ => true
  end.

Definition bytes_truthy (b : option bytes) : bool :=
  match b with
  | Some (_ :: _) => true
  | _ => false
  end.

(** [==] on [bytes]. *)
#[global] Instance byte_eq_dec : EqDecision byte := Byte.byte_eq_dec.

(** [x if x else None] for an optional [str]: the value when it is truthy. *)
Definition nonempty_str (x : option string) : option string :=
  match x with
  | Some (String c s) => Some (String c s)
  | _ => None
  end.

Section Page.
(** pydub; [requests.post(...)], [raise_for_status()] and [r.json()] as
    one answer (an exception message or the body); and the three clients
    the module creates at start-up. *)
Context (pydub : bytes → string + bytes).
Context (requests_post : list post → post → string + chat_json).
Context (speech_client tts_client openai_client : SttTts.client).

Definition st (e : element) : prog world unit := modify (render e).

(** Lines 127-160: which prompt, if any, this run works on.  A text
    prompt wins; otherwise a recording is transcribed unless its bytes
    are the ones processed last. *)
Definition choose_prompt (text_prompt : option string) (audio_wav : option bytes)
    (stt_provider : provider) (voice_language : string) : prog world (option string * bool) :=
  match nonempty_str text_prompt with
  | Some text => mret (Some text, false)
  | None =>
      match (if client_truthy speech_client then audio_wav else None) with
      | Some current_audio_bytes =>
          w ← get;
          (if last_audio_bytes w is None
           then modify (set_last_audio_bytes None) else mret tt) ;;
          w ← get;
          if decide (Some (Some current_audio_bytes) ≠ last_audio_bytes w) then
            let current_client :=
              match stt_provider with Google => speech_client | OpenAI => openai_client end in
            transcript ← bridge (SttTts.speech_to_text pydub current_client current_audio_bytes
                                   (provider_code stt_provider)
                                   (if decide (voice_language = "zh-TW")
                                    then "cmn-Hant-TW" else "en-US"));
            match nonempty_str transcript with
            | Some text =>
                modify (set_last_audio_bytes (Some current_audio_bytes)) ;;
                mret (Some text, true)
            | None => st (st_warning "無法辨識語音，請重試。") ;; mret (None, false)
            end
          else mret (None, false)
      | None => mret (None, false)
      end
  end.

(** The body of [for c in citations]. *)
Definition show_citation (c : citation) : prog world unit :=
  let line := "- " +:+ default "(unknown)" (filename c) in
  let line := match page_no c with
              | Some n => line +:+ "（p." +:+ pretty n +:+ "）"
              | None => line
              end in
  st (st_markdown line) ;;
  match nonempty_str (quote c) with
  | Some q => st (st_caption q)
  | None => mret tt
  end.

(** Lines 187-198: the heading and the citations, when there are any. *)
Definition show_citations (citations : list citation) : prog world unit :=
  match citations with
  | [] => mret tt
  | cs => st (st_markdown "#### 引用") ;; for_each cs show_citation
  end.

(** Lines 201-218: the spoken answer, [None] when nothing is spoken. *)
Definition speak_answer (answer : string) (enable_voice_response : bool)
    (stt_provider : provider) (voice_language : string) : prog world (option bytes) :=
  if enable_voice_response && negb (bool_decide (answer = "")) then
    let current_client :=
      match stt_provider with Google => tts_client | OpenAI => openai_client end in
    if client_truthy current_client then
      tts_audio ← bridge (SttTts.text_to_speech current_client answer
                            (provider_code stt_provider) voice_language None);
      (if bytes_truthy tts_audio
       then st (st_audio (default [] tts_audio)) else mret tt) ;;
      mret tts_audio
    else mret None
  else mret None.

(** Lines 162-230: show the question, call the endpoint, show and speak
    the answer, and keep both in the history. *)
Definition handle_prompt (final_prompt project_id user_id api_base : string)
    (enable_voice_response : bool) (stt_provider : provider) (voice_language : string)
  : prog world unit :=
  modify (history_append (HistoryItem "user" final_prompt None)) ;;
  st (st_markdown final_prompt) ;;
  let request :=
    Post (api_base +:+ "/chat")
      {| project_id := project_id; message := final_prompt; user_id := user_id |} 60 in
  try_except
    (data ← (λ w, lift (requests_post (posts w) request) (log_post request w));
     let answer := or_else (UiStreamlit.answer data) "" in
     st (st_markdown (or_else (UiStreamlit.answer data) "(無回覆)")) ;;
     show_citations (citations data) ;;
     tts_audio ← speak_answer answer enable_voice_response stt_provider voice_language;
     modify (history_append
               (HistoryItem "assistant" (or_else (UiStreamlit.answer data) "(無回覆)") tts_audio)))
    (λ e,
       let err := "API 呼叫失敗：" +:+ str e in
       st (st_error err) ;;
       modify (history_append (HistoryItem "assistant" err None))).

(** One run of the input part of the script. *)
Definition script (text_prompt : option string) (audio_wav : option bytes)
    (project_id user_id api_base : string) (enable_voice_response : bool)
    (stt_provider : provider) (voice_language : string) : prog world unit :=
  chosen ← choose_prompt text_prompt audio_wav stt_provider voice_language;
  match nonempty_str (fst chosen) with
  | Some final_prompt =>
      handle_prompt final_prompt project_id user_id api_base enable_voice_response
        stt_provider voice_language
  | None => mret tt
  end.

End Page.
End UiStreamlit.

(** ** The constraints of the schema, as properties of the tables *)

Module Schema.

(** [project_id TEXT PRIMARY KEY] *)
Definition project_ids_unique (db : database) : Prop :=
  NoDup (Catalog.project_id <$> projects db).

(** [PRIMARY KEY (project_id, file_id)] *)
Definition file_keys_unique (db : database) : Prop :=
  NoDup ((λ r, (file_project_id r, file_id r)) <$> project_files db).

Definition schema_ok (db : database) : Prop :=
  project_ids_unique db ∧ unique_binding db ∧ file_keys_unique db.

(** Every run of a console program relates the tables before to the
    tables after. *)
Definition steps {A} (R : relation database) (m : prog App.world A) : Prop :=
  ∀ w, R (App.conn w) (App.conn (snd (m w))).

(** The relation of an invariant. *)
Definition keeps (I : database → Prop) : relation database := λ db db', I db → I db'.

(** Rows of [projects] are only appended, and a row keeps [project_id],
    [vector_store_id] and [created_at]. *)
Definition bindings_kept : relation database := λ db db',
  ∀ i p, projects db !! i = Some p →
    ∃ p', projects db' !! i = Some p' ∧
          Catalog.project_id p' = Catalog.project_id p ∧
          vector_store_id p' = vector_store_id p ∧
          created_at p' = created_at p.

End Schema.

(** ** Concrete environments for the examples *)

Module Scenario.

(** A stand-in digest (the bytes themselves, tagged), no whitespace to
    strip, a clock that advances at every reading, and numbered ids. *)
Definition runtime : Runtime := {|
  sha256_hexdigest := λ b, "sha256:" +:+ String.string_of_list_byte b;
  strip := id;
  utcnow_isoformat := λ n, "2026-01-01T00:00:" +:+ pretty n;
  uuid4 := λ n, "uuid-" +:+ pretty n;
  getenv := λ _, None
|}.

(** A vector store that lists two files, one of them added out of band;
    uploads get numbered ids; the model's answer carries an annotation. *)
Definition listed : list OpenAI.vector_store_file :=
  [OpenAI.VectorStoreFile "file-0"; OpenAI.VectorStoreFile "ext-doc-9"].

Definition reply : OpenAI.response :=
  OpenAI.Response (Some "文件未提供") [[[OpenAI.Annotation "PRD_v1.2.pdf" (Some 3%Z) None]]].

Definition service : OpenAI.Client := {|
  OpenAI.on_vector_stores_create := λ h _, inr ("vs_" +:+ pretty (length h));
  OpenAI.on_files_create := λ h _ _ _, inr ("file-" +:+ pretty (length h));
  OpenAI.on_file_batches_create := λ _ _ _, inr tt;
  OpenAI.on_files_delete := λ _ _ _, inr tt;
  OpenAI.on_files_list := λ _ _ _, inr listed;
  OpenAI.on_responses_create := λ _ _ _ _ _, inr reply
|}.

(** The same service while it is unreachable. *)
Definition outage : OpenAI.Client := {|
  OpenAI.on_vector_stores_create := λ _ _, inl "Connection error.";
  OpenAI.on_files_create := λ _ _ _ _, inl "Connection error.";
  OpenAI.on_file_batches_create := λ _ _ _, inl "Connection error.";
  OpenAI.on_files_delete := λ _ _ _, inl "Connection error.";
  OpenAI.on_files_list := λ _ _ _, inl "Connection error.";
  OpenAI.on_responses_create := λ _ _ _ _ _, inl "Connection error."
|}.

Definition fresh : App.world := App.World Catalog.empty [] 0 0 [] None.

Definition prd : App.uploaded_file := App.UploadedFile "PRD_v1.2.pdf" ["%"; "P"; "D"; "F"]%byte.
Definition prd_copy : App.uploaded_file := App.UploadedFile "PRD_copy.pdf" ["%"; "P"; "D"; "F"]%byte.

(** One archived project. *)
Definition acme : project :=
  Project "p-acme" "Acme" "idx-1" "archived" "2025-12-01T09:00:00" "2025-12-24T18:00:00".

Definition archived_catalog : App.world :=
  App.World (Database [acme] []) [] 0 0 [] None.

(** The catalog the endpoint reads: the archived project and an active one. *)
Definition apollo : project :=
  Project "p-apollo" "Apollo" "idx-2" "active" "2025-12-02T09:00:00" "2025-12-30T10:00:00".

Definition served : ApiServer.world :=
  ApiServer.World (Some (Database [acme; apollo] [])) [].

Definition question : ApiServer.ChatReq :=
  {| ApiServer.project_id := "p-apollo"; ApiServer.user_id := "test-user-001";
     ApiServer.message := "請列出目前專案 Top 3 風險並附引用" |}.

Definition question_archived : ApiServer.ChatReq :=
  {| ApiServer.project_id := "p-acme"; ApiServer.user_id := "test-user-001";
     ApiServer.message := "請列出目前專案 Top 3 風險並附引用" |}.

(** The active project with one recorded file. *)
Definition stocked : App.world :=
  App.World
    (Database [apollo]
       [ProjectFile "p-apollo" "file-0" "PRD_v1.2.pdf" (Some "sha256:%PDF")
          "2026-01-01T00:00:0"])
    [] 1 0 [] (Some "p-apollo").

(** The console after a click on the sync button, from [stocked]: the
    listing was requested, "local only" is empty, "remote only" is the
    document added out of band, and the repair is offered. *)
Definition reconciled : App.world :=
  App.World
    (Database [apollo]
       [ProjectFile "p-apollo" "file-0" "PRD_v1.2.pdf" (Some "sha256:%PDF")
          "2026-01-01T00:00:0"])
    [OpenAI.vector_stores_files_list "idx-2" 200] 1 0
    [App.st_write "無"; App.st_write_list ["ext-doc-9"]; App.st_warning App.repair_hint]
    (Some "p-apollo").

(** Two uploads of the same bytes with dedup on while the service is down. *)
Definition outage_first : App.world :=
  snd (@App.tab_upload runtime outage "p-apollo" "idx-2" [prd] true true fresh).

Definition outage_second : App.world :=
  snd (@App.tab_upload runtime outage "p-apollo" "idx-2" [prd_copy] true true outage_first).

(** Two uploads of the same bytes with dedup off, then two with dedup on. *)
Definition doubled : App.world :=
  snd (@App.tab_upload runtime service "p-apollo" "idx-2" [prd; prd_copy] false true fresh).

Definition doubled_first : App.world :=
  snd (@App.tab_upload runtime service "p-apollo" "idx-2" [prd] true true doubled).

Definition doubled_second : App.world :=
  snd (@App.tab_upload runtime service "p-apollo" "idx-2" [prd_copy] true true doubled_first).

(** The first scenario of the specification, step by step: create a
    project, upload a document, upload it again, remove it. *)
Definition created : App.world :=
  snd (@App.sidebar_create runtime service "Acme" true fresh).

Definition uploaded : App.world :=
  snd (@App.tab_upload runtime service "uuid-0" "vs_0" [prd] true true created).

Definition uploaded_again : App.world :=
  snd (@App.tab_upload runtime service "uuid-0" "vs_0" [prd] true true uploaded).

Definition removed : App.world :=
  snd (@App.tab_list runtime service "uuid-0" "vs_0" "file-1" true true uploaded_again).

(** An OpenAI client whose transcription of a silent recording is empty. *)
Definition whisper_silence : SttTts.client :=
  SttTts.OpenAIClient (λ _ _ _, inr {| SttTts.text := "" |}) (λ _ _ _, inl "unused").

(** A Google speech client that recognises nothing. *)
Definition google_silence : SttTts.client :=
  SttTts.SpeechClient (λ _ _, inr {| SttTts.results := [] |}).

Definition pcm : bytes → string + bytes := λ b, inr b.

Definition quiet : SttTts.world := SttTts.World [] [].

(** The service while the vector store takes no new files: the upload of
    the file itself still returns. *)
Definition index_outage : OpenAI.Client := {|
  OpenAI.on_vector_stores_create := λ h _, inr ("vs_" +:+ pretty (length h));
  OpenAI.on_files_create := λ h _ _ _, inr ("file-" +:+ pretty (length h));
  OpenAI.on_file_batches_create := λ _ _ _, inl "Vector store not found.";
  OpenAI.on_files_delete := λ _ _ _, inr tt;
  OpenAI.on_files_list := λ _ _ _, inr listed;
  OpenAI.on_responses_create := λ _ _ _ _ _, inr reply
|}.

(** The console with a selection that the catalog does not know. *)
Definition stale : App.world :=
  App.World (Database [apollo] []) [] 0 0 [] (Some "p-ghost").

(** A Google speech client that hears two sentences, with a second guess
    for the first one, and a Google voice. *)
Definition heard : list SttTts.speech_result :=
  [ {| SttTts.alternatives := [ {| SttTts.transcript := "目前專案" |};
                                {| SttTts.transcript := "目前轉案" |} ] |};
    {| SttTts.alternatives := [ {| SttTts.transcript := "有哪些風險" |} ] |} ].

Definition hears : SttTts.RecognitionConfig → bytes → string + SttTts.recognize_response :=
  λ _ _, inr {| SttTts.results := heard |}.

Definition google_heard : SttTts.client := SttTts.SpeechClient hears.

Definition google_voice : SttTts.client :=
  SttTts.TextToSpeechClient (λ _ _ _, inr ["I"; "D"; "3"]%byte).

(** The chat page at the start of a session, a recording, and the page
    after the recording was turned into a prompt. *)
Definition recording : bytes := ["R"; "I"; "F"; "F"]%byte.

Definition session : UiStreamlit.world := UiStreamlit.World quiet None [] [] [].

Definition heard_once : UiStreamlit.world :=
  snd (UiStreamlit.choose_prompt pcm google_heard SttTts.NoClient None (Some recording)
         UiStreamlit.Google "zh-TW" session).

(** The endpoint as the page sees it: unreachable, or answering with one
    citation. *)
Definition endpoint_down
  : list UiStreamlit.post → UiStreamlit.post → string + UiStreamlit.chat_json :=
  λ _ _, inl "Connection refused".

Definition endpoint
  : list UiStreamlit.post → UiStreamlit.post → string + UiStreamlit.chat_json :=
  λ _ _, inr {| UiStreamlit.answer := Some "文件未提供";
                UiStreamlit.citations :=
                  [ {| UiStreamlit.filename := Some "PRD_v1.2.pdf";
                       UiStreamlit.page_no := Some 3%Z;
                       UiStreamlit.quote := None |} ] |}.

End Scenario.

(** * Properties *)

(** ** Voice bridge *)

Section VoiceBridge.
Import SttTts.
Context (pydub : bytes → string + bytes).

(** The Google path answers [None] when the response has no results. *)
Lemma google_stt_no_results recognize audio pcm_bytes lang w :
  pydub audio = inr pcm_bytes →
  recognize
      {| encoding := "LINEAR16"; sample_rate_hertz := 16000; language_code := lang;
         enable_automatic_punctuation := true |} pcm_bytes = inr {| results := [] |} →
  fst (speech_to_text pydub (SpeechClient recognize) audio "google" lang w) = Ok None.
Proof.
  intros Hpcm Hres. unfold speech_to_text, _google_stt, invoke, get_recognize.
  rewrite decide_True by done. run. rewrite Hpcm. run. rewrite Hres. reflexivity.
Qed.

(** A comprehension whose body only returns or raises an [Exception],
    without touching the state, does the same as a whole. *)
Lemma comprehension_pure {S A B} (f : A → prog S B) xs s :
  (∀ x, (∃ y, f x s = (Ok y, s)) ∨ (∃ e, is_Exception e = true ∧ f x s = (Raise e, s))) →
  (∃ ys, comprehension f xs s = (Ok ys, s)) ∨
  (∃ e, is_Exception e = true ∧ comprehension f xs s = (Raise e, s)).
Proof.
  intros Hf. induction xs as [|x xs IH]; run; [left; eauto|].
  destruct (Hf x) as [[y ->]|[e [He ->]]]; [|right; eauto].
  destruct IH as [[ys ->]|[e [He ->]]]; [left|right]; eauto.
Qed.

(** No call of [speech_to_text] raises: every failure inside a provider
    path is caught there. *)
Lemma speech_to_text_never_raises c audio provider lang w :
  ∃ r, fst (speech_to_text pydub c audio provider lang w) = Ok r.
Proof.
  unfold speech_to_text.
  destruct (decide (provider = "google")); [|destruct (decide (provider = "openai"))];
    [| |run; eauto].
  - unfold _google_stt, invoke, get_recognize, print. run.
    destruct (pydub audio) as [msg|pcm_bytes]; run; [eauto|].
    destruct c as [|recognize|synth|create speak]; run; eauto.
    destruct (recognize _ _) as [msg|[[|r rs]]]; run; eauto.
    destruct (alternatives r) as [|a alts]; run; eauto.
    match goal with |- context [comprehension ?f ?l ?s] =>
      pose proof (comprehension_pure f l s) as Hpure end.
    lapply Hpure; [clear Hpure; intros [[ts Hc]|[e' [He' Hc]]]|].
    3: { intros x. cbn. destruct (alternatives x); [right|left; eauto].
         eexists. split; [|reflexivity]. reflexivity. }
    + rewrite Hc. eauto.
    + rewrite Hc. cbn. rewrite He'. eauto.
  - unfold _openai_stt, invoke, get_audio_transcriptions, print. run.
    destruct c as [|recognize|synth|create speak]; run; eauto.
    destruct (create _ _ _) as [msg|t]; run; eauto.
Qed.

(** A provider call that raises yields [None], with the error printed. *)
Lemma openai_stt_failure_is_none create speak audio lang msg w :
  (∀ language, create "whisper-1" audio language = inl msg) →
  speech_to_text pydub (OpenAIClient create speak) audio "openai" lang w
  = (Ok None,
     World (invoked w ++ [transcriptions_create_call "whisper-1" audio
                             (if contains "zh" lang || contains "cmn" lang then "zh" else "en")])
           (stdout w ++ ["OpenAI STT Error: " +:+ msg])).
Proof.
  intros Hfail. unfold speech_to_text, _openai_stt, invoke, get_audio_transcriptions, print.
  rewrite decide_False, decide_True by done. run. rewrite Hfail. reflexivity.
Qed.

Lemma google_stt_failure_is_none recognize audio pcm_bytes lang msg w :
  pydub audio = inr pcm_bytes →
  (∀ config, recognize config pcm_bytes = inl msg) →
  fst (speech_to_text pydub (SpeechClient recognize) audio "google" lang w) = Ok None.
Proof.
  intros Hpcm Hfail. unfold speech_to_text, _google_stt, invoke, get_recognize, print.
  rewrite decide_True by done. run. rewrite Hpcm. run. rewrite Hfail. reflexivity.
Qed.

(** The OpenAI path hands back the provider's text as it is. *)
Lemma openai_stt_returns_text create speak audio lang t w :
  (∀ language, create "whisper-1" audio language = inr t) →
  fst (speech_to_text pydub (OpenAIClient create speak) audio "openai" lang w)
  = Ok (Some (text t)).
Proof.
  intros Hok. unfold speech_to_text, _openai_stt, invoke, get_audio_transcriptions.
  rewrite decide_False, decide_True by done. run. rewrite Hok. reflexivity.
Qed.

(** C10. With a provider string other than "google" and "openai",
    [speech_to_text] and [text_to_speech] return [None] and leave the world
    as it was: no provider is invoked and nothing is printed. *)
Theorem unknown_provider_returns_none c audio text provider lang voice w :
  provider ≠ "google" → provider ≠ "openai" →
  speech_to_text pydub c audio provider lang w = (Ok None, w) ∧
  text_to_speech c text provider lang voice w = (Ok None, w).
Proof.
  intros Hg Ho. unfold speech_to_text, text_to_speech.
  destruct (decide (provider = "google")) as [|_]; [contradiction|].
  destruct (decide (provider = "openai")) as [|_]; [contradiction|].
  split; reflexivity.
Qed.

End VoiceBridge.

(** C8. A silent recording sent through the OpenAI provider: the
    provider's transcript is the empty text, and [speech_to_text] returns
    that empty [str], not [None]; the Google provider returns [None] on
    the same occasion, and the caller's [if transcript:] takes both as
    nothing recognised. *)
Theorem openai_stt_silence_returns_empty_text :
  SttTts.speech_to_text Scenario.pcm Scenario.whisper_silence [] "openai" "cmn-Hant-TW"
      Scenario.quiet
  = (Ok (Some ""),
     SttTts.World [SttTts.transcriptions_create_call "whisper-1" [] "zh"] []) ∧
  fst (SttTts.speech_to_text Scenario.pcm Scenario.google_silence [] "google" "cmn-Hant-TW"
         Scenario.quiet) = Ok None ∧
  SttTts.final_prompt (Some "") = SttTts.final_prompt None.
Proof. repeat split; vm_compute; reflexivity. Qed.

Lemma unknown_provider_returns_none_example :
  SttTts.speech_to_text Scenario.pcm Scenario.whisper_silence [] "azure" "en-US" Scenario.quiet
    = (Ok None, Scenario.quiet) ∧
  SttTts.text_to_speech Scenario.whisper_silence "hello" "azure" "en-US" None Scenario.quiet
    = (Ok None, Scenario.quiet).
Proof.
  apply (unknown_provider_returns_none Scenario.pcm Scenario.whisper_silence
           [] "hello" "azure" "en-US" None Scenario.quiet); discriminate.
Defined.

(** ** Answering endpoint *)

Section Answering.
Import ApiServer.
Context `{Runtime} `{OpenAI.Client}.

Local Arguments select_active_vector_store_id : simpl never.

(** The lookup finds nothing exactly when no row with the id is active. *)
Lemma select_active_none pid db :
  (∀ p, p ∈ projects db → Catalog.project_id p = pid → status p ≠ "active") →
  select_active_vector_store_id pid db = None.
Proof.
  unfold select_active_vector_store_id. generalize (projects db) as ps.
  induction ps as [|p ps IH]; intros Hno; [reflexivity|].
  rewrite filter_cons_False.
  - apply IH. intros q Hq. apply Hno. by right.
  - intros [Hid Hst]. by apply (Hno p); [left|..].
Qed.

(** C3. When no row of the catalog carries the request's project id with
    status active (the id is unknown, or its project is archived), [chat]
    raises the 404 [HTTPException] of [get_vector_store_id] and the world
    is as before: no request was sent to the answering service. *)
Theorem chat_unknown_or_inactive_project db sent req :
  (∀ p, p ∈ projects db → Catalog.project_id p = project_id req → status p ≠ "active") →
  chat req (World (Some db) sent)
  = (Raise (HTTPException 404 ("project_id not found or inactive: " +:+ project_id req)),
     World (Some db) sent).
Proof.
  intros Hno. unfold chat, get_vector_store_id, get_conn. run.
  rewrite (select_active_none _ _ Hno). reflexivity.
Qed.

(** Without a database file, [get_conn] raises its 500 before any lookup
    or request. *)
Lemma chat_without_database sent req :
  chat req (World None sent)
  = (Raise (HTTPException 500 ("DB file not found: " +:+ DB_PATH)), World None sent).
Proof. reflexivity. Qed.

(** When the project is active with a bound vector store and the service
    answers, [chat] returns after exactly one request. *)
Lemma chat_ok db sent req c vs resp :
  select_active_vector_store_id (project_id req) db = Some (String c vs) →
  OpenAI.on_responses_create sent OPENAI_MODEL INSTRUCTIONS (message req) [String c vs]
    = inr resp →
  chat req (World (Some db) sent)
  = (Ok {| answer := or_else (OpenAI.output_text resp) ""; citations := [] |},
     World (Some db)
       (sent ++ [OpenAI.responses_create OPENAI_MODEL INSTRUCTIONS (message req) [String c vs]])).
Proof.
  intros Hvs Hresp. unfold chat, get_vector_store_id, get_conn, request, log_call. run.
  rewrite Hvs. run. rewrite Hresp. reflexivity.
Qed.

(** C7. Every successful [chat] returns an answer string and the empty
    citations list: the answer is the service's [output_text] (or [""]),
    and nothing else of the service's response, whatever it holds, reaches
    the result. *)
Theorem chat_success_citations_empty req w r w' :
  chat req w = (Ok r, w') →
  citations r = [] ∧
  ∃ vs_id resp,
    OpenAI.on_responses_create (calls w) OPENAI_MODEL INSTRUCTIONS (message req) [vs_id]
      = inr resp ∧
    answer r = or_else (OpenAI.output_text resp) "" ∧
    w' = log_call (OpenAI.responses_create OPENAI_MODEL INSTRUCTIONS (message req) [vs_id]) w.
Proof.
  unfold chat, get_vector_store_id, get_conn, request. run.
  destruct (db_file w) as [db|]; run; [|discriminate].
  destruct (select_active_vector_store_id _ db) as [[|c vs]|]; run; try discriminate.
  destruct (OpenAI.on_responses_create _ _ _ _ _) as [msg|resp] eqn:Hresp; run;
    [discriminate|].
  intros [= <- <-]. split; [reflexivity|]. eauto.
Qed.

End Answering.

Lemma chat_unknown_or_inactive_project_example :
  @ApiServer.chat Scenario.runtime Scenario.service Scenario.question_archived Scenario.served
  = (Raise (HTTPException 404 "project_id not found or inactive: p-acme"), Scenario.served).
Proof.
  apply (@chat_unknown_or_inactive_project Scenario.runtime Scenario.service
           (Database [Scenario.acme; Scenario.apollo] []) [] Scenario.question_archived).
  intros p Hp Hid. cbn in Hp.
  apply elem_of_cons in Hp as [->|Hp]; [discriminate|].
  apply elem_of_cons in Hp as [->|Hp]; [discriminate|].
  by apply elem_of_nil in Hp.
Defined.

Lemma chat_success_citations_empty_example :
  ∃ r w',
    @ApiServer.chat Scenario.runtime Scenario.service Scenario.question Scenario.served
      = (Ok r, w') ∧
    ApiServer.answer r = "文件未提供" ∧ ApiServer.citations r = [].
Proof.
  eexists _, _. split; [vm_compute; reflexivity|]. split; [reflexivity|].
  eapply (@chat_success_citations_empty Scenario.runtime Scenario.service
            Scenario.question Scenario.served).
  vm_compute. reflexivity.
Defined.

(** ** Catalog store *)

(** A filter keeps nothing exactly when no element qualifies. *)
Lemma filter_nil_iff {A} (P : A → Prop) `{∀ x, Decision (P x)} (l : list A) :
  filter P l = [] ↔ ¬ Exists P l.
Proof.
  induction l as [|x l IH]; [by rewrite filter_nil, Exists_nil; tauto|].
  rewrite filter_cons, Exists_cons. destruct (decide (P x)); [split; [done|tauto]|].
  rewrite IH. tauto.
Qed.

Section CatalogStore.
Import App.
Context `{Runtime}.

(** [db_create_project] keeps the bindings unique, whether it inserts or raises. *)
Lemma db_create_project_unique_binding name vs w :
  unique_binding (conn w) → unique_binding (conn (snd (db_create_project name vs w))).
Proof.
  unfold unique_binding, db_create_project, uuid_uuid4, now_iso, insert_project. run.
  intros Hnd. repeat case_bool_decide; run; [done..|].
  rewrite fmap_app. apply NoDup_app. split_and!; [done| |apply NoDup_singleton].
  intros v Hv [->|[]%elem_of_nil]%elem_of_cons.
  apply list_elem_of_fmap in Hv as (q & Hq & Hin).
  match goal with Hno : ¬ Exists (λ q, vector_store_id q = _) _ |- _ => apply Hno end.
  apply Exists_exists. eauto.
Qed.

(** C4. After a [db_create_project] that bound [vs] has returned, a second
    one with the same [vs] raises [sqlite3.IntegrityError], leaves the
    tables as they were, and exactly one project is bound to [vs]. *)
Theorem create_project_same_vector_store name1 name2 vs w pid1 w1 :
  db_create_project name1 vs w = (Ok pid1, w1) →
  (∃ msg, fst (db_create_project name2 vs w1) = Raise (IntegrityError msg)) ∧
  conn (snd (db_create_project name2 vs w1)) = conn w1 ∧
  length (projects_bound_to vs (conn (snd (db_create_project name2 vs w1)))) = 1.
Proof.
  unfold db_create_project, uuid_uuid4, now_iso, insert_project, projects_bound_to. run.
  destruct (bool_decide (Exists _ (projects (conn w)))) eqn:Hpk; run; [discriminate|].
  destruct (bool_decide (Exists (λ q, vector_store_id q = vs) (projects (conn w)))) eqn:Hvs;
    run; [discriminate|].
  intros [= <- <-]. cbn.
  apply bool_decide_eq_false in Hvs. apply bool_decide_eq_false in Hpk.
  assert (Hbound : Exists (λ q, vector_store_id q = vs)
            (projects (conn w) ++
             [Project (uuid4 (uuid_draws w)) name1 vs "active"
                (utcnow_isoformat (clock_reads w)) (utcnow_isoformat (clock_reads w))])).
  { apply Exists_app. right. by left. }
  split_and!.
  - repeat case_bool_decide; try contradiction; run; eauto.
  - repeat case_bool_decide; try contradiction; run; done.
  - repeat case_bool_decide; try contradiction; run;
      by rewrite filter_app, (proj2 (filter_nil_iff _ _) Hvs), filter_cons_True by (cbn; done).
Qed.

(** C5 (as the code has it). Archiving a project that is already archived
    returns normally; its row keeps [project_id], [project_name],
    [vector_store_id], [status] and [created_at], and [updated_at] is set to
    the time of the call; rows of other projects, the number of rows and
    [project_files] are untouched. *)
Theorem archive_archived_project pid w i p :
  projects (conn w) !! i = Some p →
  Catalog.project_id p = pid →
  status p = "archived" →
  fst (db_archive_project pid w) = Ok tt ∧
  projects (conn (snd (db_archive_project pid w))) !! i
    = Some (Project (Catalog.project_id p) (project_name p) (vector_store_id p) (status p)
              (created_at p) (utcnow_isoformat (clock_reads w))) ∧
  (∀ j q, projects (conn w) !! j = Some q → Catalog.project_id q ≠ pid →
          projects (conn (snd (db_archive_project pid w))) !! j = Some q) ∧
  length (projects (conn (snd (db_archive_project pid w)))) = length (projects (conn w)) ∧
  project_files (conn (snd (db_archive_project pid w))) = project_files (conn w).
Proof.
  intros Hi Hid Hst. unfold db_archive_project, now_iso, update_project_archived. run.
  split_and!; [done| | |by rewrite length_fmap|done].
  - rewrite list_lookup_fmap, Hi. cbn. rewrite decide_True by done. by rewrite Hst.
  - intros j q Hj Hne. rewrite list_lookup_fmap, Hj. cbn. by rewrite decide_False.
Qed.

(** C6 (as the code has it). [db_rename_project] never raises.  Every row
    whose [project_id] is the given one gets the new name and the time of
    the call as [updated_at] and keeps its other columns; every other row,
    the number of rows and [project_files] are untouched; so with an id
    that no row carries the tables are left exactly as they were. *)
Theorem rename_project_updates_matching_rows pid new_name w :
  fst (db_rename_project pid new_name w) = Ok tt ∧
  (∀ i p, projects (conn w) !! i = Some p →
     projects (conn (snd (db_rename_project pid new_name w))) !! i
     = Some (if decide (Catalog.project_id p = pid)
             then Project (Catalog.project_id p) new_name (vector_store_id p) (status p)
                    (created_at p) (utcnow_isoformat (clock_reads w))
             else p)) ∧
  length (projects (conn (snd (db_rename_project pid new_name w))))
    = length (projects (conn w)) ∧
  project_files (conn (snd (db_rename_project pid new_name w))) = project_files (conn w) ∧
  ((∀ p, p ∈ projects (conn w) → Catalog.project_id p ≠ pid) →
   conn (snd (db_rename_project pid new_name w)) = conn w).
Proof.
  unfold db_rename_project, now_iso, update_project_name. run.
  split_and!; [done| |by rewrite length_fmap|done|].
  - intros i p Hi. by rewrite list_lookup_fmap, Hi.
  - intros Hno. destruct (conn w) as [ps fs]. cbn in *. f_equal.
    induction ps as [|p ps IH]; [done|]. cbn.
    rewrite decide_False by (apply Hno; by left).
    f_equal. apply IH. intros q Hq. apply Hno. by right.
Qed.

End CatalogStore.

Lemma create_project_same_vector_store_example :
  (∃ msg, fst (@App.db_create_project Scenario.runtime "Acme again" "idx-1"
                 (App.World (Database
                    [Project "uuid-0" "Acme" "idx-1" "active" "2026-01-01T00:00:0"
                       "2026-01-01T00:00:0"] []) [] 1 1 [] None))
          = Raise (IntegrityError msg)) ∧
  App.conn (snd (@App.db_create_project Scenario.runtime "Acme again" "idx-1"
                 (App.World (Database
                    [Project "uuid-0" "Acme" "idx-1" "active" "2026-01-01T00:00:0"
                       "2026-01-01T00:00:0"] []) [] 1 1 [] None)))
  = Database [Project "uuid-0" "Acme" "idx-1" "active" "2026-01-01T00:00:0"
                "2026-01-01T00:00:0"] [] ∧
  length (projects_bound_to "idx-1"
            (App.conn (snd (@App.db_create_project Scenario.runtime "Acme again" "idx-1"
               (App.World (Database
                  [Project "uuid-0" "Acme" "idx-1" "active" "2026-01-01T00:00:0"
                     "2026-01-01T00:00:0"] []) [] 1 1 [] None))))) = 1.
Proof.
  apply (@create_project_same_vector_store Scenario.runtime "Acme" "Acme again" "idx-1"
           Scenario.fresh "uuid-0").
  vm_compute. reflexivity.
Defined.

Lemma archive_archived_project_example :
  fst (@App.db_archive_project Scenario.runtime "p-acme" Scenario.archived_catalog) = Ok tt ∧
  projects (App.conn (snd (@App.db_archive_project Scenario.runtime "p-acme"
                             Scenario.archived_catalog))) !! 0
    = Some (Project "p-acme" "Acme" "idx-1" "archived" "2025-12-01T09:00:00"
              "2026-01-01T00:00:0").
Proof.
  pose proof (@archive_archived_project Scenario.runtime "p-acme" Scenario.archived_catalog
                0 Scenario.acme eq_refl eq_refl eq_refl) as (Hok & Hrow & _).
  split; [exact Hok|exact Hrow].
Defined.

(** An archived project archived once more: the call returns, and the
    stored row is not the one that was there, its [updated_at] has moved. *)
Lemma archive_again_changes_the_row :
  @App.db_archive_project Scenario.runtime "p-acme" Scenario.archived_catalog
  = (Ok tt,
     App.World
       (Database [Project "p-acme" "Acme" "idx-1" "archived" "2025-12-01T09:00:00"
                    "2026-01-01T00:00:0"] []) [] 1 0 [] None) ∧
  App.conn Scenario.archived_catalog
  = Database [Project "p-acme" "Acme" "idx-1" "archived" "2025-12-01T09:00:00"
                "2025-12-24T18:00:00"] [] ∧
  App.conn (snd (@App.db_archive_project Scenario.runtime "p-acme" Scenario.archived_catalog))
  ≠ App.conn Scenario.archived_catalog.
Proof. split_and!; [vm_compute; reflexivity..|vm_compute; discriminate]. Qed.

(** Renaming with an id that no row carries: no exception is raised, the
    call returns [None] and the tables are as before. *)
Lemma rename_unknown_project_returns_normally :
  Forall (λ p, Catalog.project_id p ≠ "p-unknown")
    (projects (App.conn Scenario.archived_catalog)) ∧
  @App.db_rename_project Scenario.runtime "p-unknown" "Zeus" Scenario.archived_catalog
  = (Ok tt, App.World (Database [Scenario.acme] []) [] 1 0 [] None).
Proof. split; [repeat constructor; discriminate|vm_compute; reflexivity]. Qed.

(** ** Admin console: upload, removal, reconciliation *)

Section Console.
Import App.
Context `{Runtime} `{OpenAI.Client}.

Local Set Warnings "-clear-no-such-hyp".

Local Arguments select_project_files : simpl never.
Local Arguments insert_or_replace_project_file : simpl never.
Local Arguments delete_project_file : simpl never.
Local Arguments exists_sha_in_project : simpl never.
Local Arguments missing_in_local : simpl never.
Local Arguments missing_in_remote : simpl never.
Local Arguments ids_or_none : simpl never.
Local Arguments db_add_project_file : simpl never.

(** *** Removal *)

(** What [tab_list] leaves in the tables: the row is deleted only when the
    button was effective and the remote removal returned. *)
Lemma tab_list_conn pid vs fid confirm clicked w :
  conn (snd (tab_list pid vs fid confirm clicked w))
  = if button clicked (negb (truthy (strip fid)) || negb confirm) then
      match OpenAI.on_files_delete (calls w) vs (strip fid) with
      | inr _ => delete_project_file pid (strip fid) (conn w)
      | inl _ => conn w
      end
    else conn w.
Proof.
  unfold tab_list, db_list_project_files, db_remove_project_file, st, st_rerun, request. run.
  destruct (button _ _); run.
  - destruct (nonempty _); run;
      destruct (OpenAI.on_files_delete _ _ _) as [msg|[]]; run; done.
  - destruct (nonempty _); run; done.
Qed.

(** C9. In the removal flow of [tab_list], when the remote
    [vector_stores.files.delete] raises, the tables are left as they were:
    [db_remove_project_file] runs only after that call has returned. *)
Theorem remove_remote_failure_keeps_catalog pid vs fid confirm clicked w msg :
  OpenAI.on_files_delete (calls w) vs (strip fid) = inl msg →
  conn (snd (tab_list pid vs fid confirm clicked w)) = conn w.
Proof.
  intros Hfail. rewrite tab_list_conn, Hfail. by destruct (button _ _).
Qed.

(** Conversely, tables that differ afterwards witness a remote removal
    that returned. *)
Lemma remove_only_after_remote_success pid vs fid confirm clicked w :
  conn (snd (tab_list pid vs fid confirm clicked w)) ≠ conn w →
  button clicked (negb (truthy (strip fid)) || negb confirm) = true ∧
  OpenAI.on_files_delete (calls w) vs (strip fid) = inr tt.
Proof.
  rewrite tab_list_conn. destruct (button _ _); [|done].
  destruct (OpenAI.on_files_delete _ _ _) as [msg|[]]; done.
Qed.

(** *** Upload and dedup *)

Lemma exists_sha_rows pid sha db :
  exists_sha_in_project pid sha db = false ↔ rows_with_sha pid sha db = [].
Proof.
  unfold exists_sha_in_project, rows_with_sha.
  by rewrite bool_decide_eq_false, filter_nil_iff.
Qed.

(** With dedup on and the hash already present, an upload is skipped:
    nothing is sent and nothing is written. *)
Lemma upload_one_skips pid vs uf w :
  rows_with_sha pid (sha256_bytes (getvalue uf)) (conn w) ≠ [] →
  upload_one pid vs true uf w
  = (Ok tt, render (st_info ("略過（同專案已存在相同內容）：" +:+ name uf)) w).
Proof.
  intros Hrows. unfold upload_one, db_has_sha_in_project, st. run.
  destruct (exists_sha_in_project _ _ _) eqn:Hex; [done|].
  by apply exists_sha_rows in Hex.
Qed.

(** Without a matching row, and with both remote calls returning, an
    upload records the mapping. *)
Lemma upload_one_records pid vs uf w f_id :
  rows_with_sha pid (sha256_bytes (getvalue uf)) (conn w) = [] →
  OpenAI.on_files_create (calls w) (name uf) (getvalue uf) "assistants" = inr f_id →
  OpenAI.on_file_batches_create
    (calls w ++ [OpenAI.files_create (name uf) (getvalue uf) "assistants"]) vs [f_id] = inr tt →
  conn (snd (upload_one pid vs true uf w))
  = insert_or_replace_project_file
      (ProjectFile pid f_id (name uf) (Some (sha256_bytes (getvalue uf)))
         (utcnow_isoformat (clock_reads w)))
      (conn w).
Proof.
  intros Hrows Hfile Hbatch.
  unfold upload_one, db_has_sha_in_project, db_add_project_file, now_iso, st, request. run.
  apply exists_sha_rows in Hrows. rewrite Hrows. run.
  rewrite Hfile. run. rewrite Hbatch. run. done.
Qed.

(** C2 (as the code has it). Two uploads of the same bytes with dedup on,
    into a project that holds at most one row with their hash and, if it
    holds none, with the first upload's two remote calls returning: the
    project then holds exactly one row with that hash, and the second
    upload sends no request and leaves the tables as they were. *)
Theorem upload_twice_with_dedup pid vs uf1 uf2 w :
  getvalue uf2 = getvalue uf1 →
  length (rows_with_sha pid (sha256_bytes (getvalue uf1)) (conn w)) ≤ 1 →
  (rows_with_sha pid (sha256_bytes (getvalue uf1)) (conn w) = [] →
   ∃ f_id,
     OpenAI.on_files_create (calls w) (name uf1) (getvalue uf1) "assistants" = inr f_id ∧
     OpenAI.on_file_batches_create
       (calls w ++ [OpenAI.files_create (name uf1) (getvalue uf1) "assistants"]) vs [f_id]
       = inr tt) →
  length (rows_with_sha pid (sha256_bytes (getvalue uf1))
            (conn (snd (tab_upload pid vs [uf2] true true
                          (snd (tab_upload pid vs [uf1] true true w)))))) = 1 ∧
  calls (snd (tab_upload pid vs [uf2] true true (snd (tab_upload pid vs [uf1] true true w))))
  = calls (snd (tab_upload pid vs [uf1] true true w)) ∧
  conn (snd (tab_upload pid vs [uf2] true true (snd (tab_upload pid vs [uf1] true true w))))
  = conn (snd (tab_upload pid vs [uf1] true true w)).
Proof.
  intros Hdata Hle Hremote.
  assert (Hone : ∀ uf w0, snd (tab_upload pid vs [uf] true true w0)
                          = snd (upload_one pid vs true uf w0)).
  { intros uf w0. unfold tab_upload. run. by destruct (upload_one _ _ _ _ _) as [[[]|e] w']. }
  rewrite !Hone.
  assert (Hafter : length (rows_with_sha pid (sha256_bytes (getvalue uf1))
                             (conn (snd (upload_one pid vs true uf1 w)))) = 1).
  { destruct (rows_with_sha pid _ (conn w)) as [|r rs] eqn:Hrows.
    - destruct (Hremote eq_refl) as (f_id & Hfile & Hbatch).
      rewrite (upload_one_records _ _ _ _ f_id) by done.
      unfold rows_with_sha, insert_or_replace_project_file in *. cbn.
      rewrite filter_app, filter_cons_True by (cbn; done).
      rewrite list_filter_filter. rewrite (proj2 (filter_nil_iff _ _)); [done|].
      apply filter_nil_iff in Hrows. intros Hex. apply Hrows.
      eapply Exists_impl; [exact Hex|]. cbn. tauto.
    - rewrite upload_one_skips by (by rewrite Hrows). cbn. rewrite Hrows.
      destruct rs; [done|cbn in Hle; lia]. }
  rewrite (upload_one_skips pid vs uf2).
  - cbn. done.
  - rewrite Hdata. intros Hnil. by rewrite Hnil in Hafter.
Qed.

(** *** Reconciliation *)

Lemma sorted_set (l : list string) : list_to_set (sorted l) =@{gset string} list_to_set l.
Proof.
  apply set_eq. intros x. rewrite !elem_of_list_to_set. unfold sorted.
  by rewrite merge_sort_Permutation.
Qed.

Lemma missing_in_remote_set local remote :
  list_to_set (missing_in_remote local remote)
  =@{gset string} local_file_ids local ∖ remote_file_ids remote.
Proof. unfold missing_in_remote. by rewrite sorted_set, list_to_set_elements_L. Qed.

Lemma missing_in_local_set local remote :
  list_to_set (missing_in_local local remote)
  =@{gset string} remote_file_ids remote ∖ local_file_ids local.
Proof. unfold missing_in_local. by rewrite sorted_set, list_to_set_elements_L. Qed.

(** Nothing is missing locally once every remote id is known. *)
Lemma missing_in_local_nil local remote :
  remote_file_ids remote ⊆ local_file_ids local → missing_in_local local remote = [].
Proof.
  intros Hsub. unfold missing_in_local.
  replace (remote_file_ids remote ∖ local_file_ids local) with (∅ : gset string)
    by set_solver.
  by rewrite elements_empty.
Qed.

(** The ids that [db_list_project_files] yields for a project. *)
Lemma elem_of_local_file_ids pid db x :
  x ∈ local_file_ids (select_project_files pid db)
  ↔ ∃ r, r ∈ project_files db ∧ file_project_id r = pid ∧ file_id r = x.
Proof.
  unfold local_file_ids, select_project_files, order_by_desc.
  rewrite elem_of_list_to_set, list_elem_of_fmap.
  setoid_rewrite merge_sort_Permutation. setoid_rewrite list_elem_of_filter.
  naive_solver.
Qed.

Lemma local_file_ids_insert pid fid fn sha ts db :
  local_file_ids (select_project_files pid
    (insert_or_replace_project_file (ProjectFile pid fid fn sha ts) db))
  = {[fid]} ∪ local_file_ids (select_project_files pid db).
Proof.
  apply set_eq. intros x.
  rewrite elem_of_union, elem_of_singleton, !elem_of_local_file_ids.
  unfold insert_or_replace_project_file. cbn.
  setoid_rewrite elem_of_app. setoid_rewrite list_elem_of_filter.
  setoid_rewrite list_elem_of_singleton. split.
  - intros (r & [[_ Hr]| ->] & Hp & Hf); [right; eauto|by left].
  - intros [->|(r & Hr & Hp & Hf)].
    + eexists. split; [by right|done].
    + destruct (decide (file_id r = fid)) as [Heq|Hne].
      * eexists. split; [by right|]. cbn. by rewrite <- Heq.
      * exists r. split; [left; split; [tauto|done]|done].
Qed.

Lemma db_add_project_file_run pid fid fn sha w :
  db_add_project_file pid fid fn sha w
  = (Ok tt,
     set_conn (insert_or_replace_project_file
                 (ProjectFile pid fid fn sha (utcnow_isoformat (clock_reads w))) (conn w))
       (tick w)).
Proof. reflexivity. Qed.

(** The repair loop returns, adds the given ids to the project's ids and
    sends nothing. *)
Lemma repair_loop pid ids w :
  ∃ w', for_each ids (λ fid, db_add_project_file pid fid fid None) w = (Ok tt, w') ∧
        local_file_ids (select_project_files pid (conn w'))
        = list_to_set ids ∪ local_file_ids (select_project_files pid (conn w)) ∧
        calls w' = calls w.
Proof.
  revert w. induction ids as [|fid ids IH]; intros w.
  - exists w. split_and!; [done|set_solver|done].
  - cbn [for_each]. unfold mbind, prog_bind. rewrite db_add_project_file_run.
    match goal with |- context [for_each ids _ ?w1] =>
      destruct (IH w1) as (w' & -> & Hids & Hcalls) end.
    exists w'. split_and!; [done| |done].
    rewrite Hids. cbn. rewrite local_file_ids_insert. set_solver.
Qed.

(** One run of the reconciliation without repair. *)
Lemma tab_sync_reconcile pid vs remote w :
  OpenAI.on_files_list (calls w) vs 200 = inr remote →
  tab_sync pid vs true false w
  = (Ok tt,
     World (conn w) (calls w ++ [OpenAI.vector_stores_files_list vs 200])
       (clock_reads w) (uuid_draws w)
       (page w
         ++ [ids_or_none (missing_in_remote (select_project_files pid (conn w)) remote);
             ids_or_none (missing_in_local (select_project_files pid (conn w)) remote)]
         ++ (if nonempty (missing_in_local (select_project_files pid (conn w)) remote)
             then [st_warning repair_hint] else []))
       (selected_project_id w)).
Proof.
  intros Hlist. unfold tab_sync, db_list_project_files, write_ids, st, request. run.
  rewrite Hlist. run.
  destruct (nonempty _); run; unfold render, log_call; cbn; by rewrite <- !app_assoc.
Qed.

(** One run with repair: the project's ids become the union, and nothing
    is written when nothing was missing. *)
Lemma tab_sync_repair pid vs remote w :
  OpenAI.on_files_list (calls w) vs 200 = inr remote →
  local_file_ids (select_project_files pid (conn (snd (tab_sync pid vs true true w))))
  = local_file_ids (select_project_files pid (conn w)) ∪ remote_file_ids remote ∧
  (remote_file_ids remote ⊆ local_file_ids (select_project_files pid (conn w)) →
   conn (snd (tab_sync pid vs true true w)) = conn w).
Proof.
  intros Hlist. unfold tab_sync, db_list_project_files, write_ids, st, st_rerun, request. run.
  rewrite Hlist. run.
  destruct (nonempty _) eqn:Hne; run.
  - match goal with |- context [for_each ?ids ?f ?w1] =>
      destruct (repair_loop pid ids w1) as (w' & -> & Hids & _) end.
    run. split.
    + rewrite Hids, missing_in_local_set. cbn.
      apply set_eq. intros x. rewrite !elem_of_union, elem_of_difference.
      destruct (decide (x ∈ local_file_ids (select_project_files pid (conn w)))); tauto.
    + intros Hsub. by rewrite (missing_in_local_nil _ _ Hsub) in Hne.
  - split; [|done].
    destruct (missing_in_local _ _) eqn:Hmiss; [|done].
    pose proof (missing_in_local_set (select_project_files pid (conn w)) remote) as Hset.
    rewrite Hmiss in Hset. cbn in Hset.
    apply set_eq. intros x. rewrite elem_of_union.
    split; [tauto|]. intros [Hx|Hx]; [done|].
    destruct (decide (x ∈ local_file_ids (select_project_files pid (conn w)))); [done|].
    assert (x ∈ (∅ : gset string)) by (rewrite Hset; set_solver). set_solver.
Qed.

Lemma elem_of_remote_file_ids remote x :
  x ∈ remote_file_ids remote ↔ ∃ f, f ∈ remote ∧ OpenAI.file_id f = x.
Proof. unfold remote_file_ids. rewrite elem_of_list_to_set, list_elem_of_fmap. naive_solver. Qed.

(** The reconciliation run, stated without the script's own helpers.
    When the service answers the listing with [remote], the run sends that
    one request, leaves the tables, the clock and the selection as they
    were, and renders two reports: [only_local], the ids that a local row
    of the project has and no listed file has, and [only_remote], the ids
    that a listed file has and no local row of the project has.  Each
    report is sorted and without repetition, an empty one is rendered as
    "無", and the hint about the repair follows when [only_remote] is not
    empty. *)
Lemma reconcile_reports_the_differences pid vs remote w :
  OpenAI.on_files_list (calls w) vs 200 = inr remote →
  ∃ only_local only_remote,
    tab_sync pid vs true false w
    = (Ok tt,
       World (conn w) (calls w ++ [OpenAI.vector_stores_files_list vs 200])
         (clock_reads w) (uuid_draws w)
         (page w
          ++ [match only_local with [] => st_write "無" | _ => st_write_list only_local end;
              match only_remote with [] => st_write "無" | _ => st_write_list only_remote end]
          ++ match only_remote with [] => [] | _ => [st_warning repair_hint] end)
         (selected_project_id w)) ∧
    Sorted String.le only_local ∧ NoDup only_local ∧
    Sorted String.le only_remote ∧ NoDup only_remote ∧
    (∀ x, x ∈ only_local ↔
          (∃ r, r ∈ project_files (conn w) ∧ file_project_id r = pid ∧ file_id r = x) ∧
          ¬ (∃ f, f ∈ remote ∧ OpenAI.file_id f = x)) ∧
    (∀ x, x ∈ only_remote ↔
          (∃ f, f ∈ remote ∧ OpenAI.file_id f = x) ∧
          ¬ (∃ r, r ∈ project_files (conn w) ∧ file_project_id r = pid ∧ file_id r = x)).
Proof.
  intros Hlist.
  exists (missing_in_remote (select_project_files pid (conn w)) remote),
         (missing_in_local (select_project_files pid (conn w)) remote).
  split_and!.
  - rewrite (tab_sync_reconcile pid vs remote w Hlist). unfold ids_or_none, nonempty.
    by destruct (missing_in_remote _ _), (missing_in_local _ _).
  - unfold missing_in_remote, sorted. apply Sorted_merge_sort, _.
  - unfold missing_in_remote, sorted. rewrite merge_sort_Permutation. apply NoDup_elements.
  - unfold missing_in_local, sorted. apply Sorted_merge_sort, _.
  - unfold missing_in_local, sorted. rewrite merge_sort_Permutation. apply NoDup_elements.
  - intros x.
    rewrite <- (elem_of_list_to_set (C := gset string)), missing_in_remote_set.
    by rewrite elem_of_difference, elem_of_local_file_ids, elem_of_remote_file_ids.
  - intros x.
    rewrite <- (elem_of_list_to_set (C := gset string)), missing_in_local_set.
    by rewrite elem_of_difference, elem_of_local_file_ids, elem_of_remote_file_ids.
Qed.

(** The repair, where it is reached: in a run in which both buttons are
    reported pressed, the ids of the project's rows become the former ones
    together with the listed ones, and nothing is written when every
    listed id was known. *)
Lemma repair_in_the_sync_run pid vs remote w :
  OpenAI.on_files_list (calls w) vs 200 = inr remote →
  (∀ x, (∃ r, r ∈ project_files (conn (snd (tab_sync pid vs true true w))) ∧
              file_project_id r = pid ∧ file_id r = x) ↔
        (∃ r, r ∈ project_files (conn w) ∧ file_project_id r = pid ∧ file_id r = x) ∨
        (∃ f, f ∈ remote ∧ OpenAI.file_id f = x)) ∧
  ((∀ f, f ∈ remote →
         ∃ r, r ∈ project_files (conn w) ∧ file_project_id r = pid ∧
              file_id r = OpenAI.file_id f) →
   conn (snd (tab_sync pid vs true true w)) = conn w).
Proof.
  intros Hlist. destruct (tab_sync_repair pid vs remote w Hlist) as [Hids Hsame]. split.
  - intros x.
    rewrite <- !elem_of_local_file_ids, <- elem_of_remote_file_ids, Hids.
    apply elem_of_union.
  - intros Hknown. apply Hsame. intros x (f & Hf & <-)%elem_of_remote_file_ids.
    apply elem_of_local_file_ids. by apply Hknown.
Qed.

(** The repair button is created inside the block of the sync button
    (line 301 inside the [if] of line 276).  The run that a click on it
    starts has the sync button not pressed, and that run does nothing at
    all, whatever the repair button reports. *)
Lemma repair_click_is_lost pid vs repair_clicked w :
  tab_sync pid vs false repair_clicked w = (Ok tt, w).
Proof. reflexivity. Qed.

End Console.

(** The first scenario of the specification, run: one project bound to
    the new vector store; one row and two requests for the upload; the
    same row and no further request for the second upload; no row and one
    more request after the removal. *)
Example create_upload_twice_remove :
  App.conn Scenario.created
  = Database [Project "uuid-0" "Acme" "vs_0" "active" "2026-01-01T00:00:0"
                "2026-01-01T00:00:0"] [] ∧
  App.selected_project_id Scenario.created = Some "uuid-0" ∧
  project_files (App.conn Scenario.uploaded)
  = [ProjectFile "uuid-0" "file-1" "PRD_v1.2.pdf" (Some "sha256:%PDF") "2026-01-01T00:00:1"] ∧
  App.calls Scenario.uploaded
  = [OpenAI.vector_stores_create "Acme";
     OpenAI.files_create "PRD_v1.2.pdf" ["%"; "P"; "D"; "F"]%byte "assistants";
     OpenAI.vector_stores_file_batches_create "vs_0" ["file-1"]] ∧
  App.conn Scenario.uploaded_again = App.conn Scenario.uploaded ∧
  App.calls Scenario.uploaded_again = App.calls Scenario.uploaded ∧
  project_files (App.conn Scenario.removed) = [] ∧
  App.calls Scenario.removed
  = App.calls Scenario.uploaded ++ [OpenAI.vector_stores_files_delete "vs_0" "file-1"].
Proof. split_and!; vm_compute; reflexivity. Qed.

Lemma remove_remote_failure_keeps_catalog_example :
  App.conn (snd (@App.tab_list Scenario.runtime Scenario.outage "p-apollo" "idx-2" "file-0"
                   true true Scenario.stocked))
  = App.conn Scenario.stocked.
Proof.
  apply (@remove_remote_failure_keeps_catalog Scenario.runtime Scenario.outage
           "p-apollo" "idx-2" "file-0" true true Scenario.stocked "Connection error.").
  reflexivity.
Defined.

Lemma upload_twice_with_dedup_example :
  length (rows_with_sha "p-apollo" "sha256:%PDF"
            (App.conn (snd (@App.tab_upload Scenario.runtime Scenario.service "p-apollo" "idx-2"
                              [Scenario.prd_copy] true true
                              (snd (@App.tab_upload Scenario.runtime Scenario.service
                                      "p-apollo" "idx-2" [Scenario.prd] true true
                                      Scenario.fresh)))))) = 1 ∧
  App.calls (snd (@App.tab_upload Scenario.runtime Scenario.service "p-apollo" "idx-2"
                    [Scenario.prd_copy] true true
                    (snd (@App.tab_upload Scenario.runtime Scenario.service
                            "p-apollo" "idx-2" [Scenario.prd] true true Scenario.fresh))))
  = App.calls (snd (@App.tab_upload Scenario.runtime Scenario.service "p-apollo" "idx-2"
                      [Scenario.prd] true true Scenario.fresh)) ∧
  App.conn (snd (@App.tab_upload Scenario.runtime Scenario.service "p-apollo" "idx-2"
                   [Scenario.prd_copy] true true
                   (snd (@App.tab_upload Scenario.runtime Scenario.service
                           "p-apollo" "idx-2" [Scenario.prd] true true Scenario.fresh))))
  = App.conn (snd (@App.tab_upload Scenario.runtime Scenario.service "p-apollo" "idx-2"
                     [Scenario.prd] true true Scenario.fresh)).
Proof.
  apply (@upload_twice_with_dedup Scenario.runtime Scenario.service "p-apollo" "idx-2"
           Scenario.prd Scenario.prd_copy Scenario.fresh).
  - reflexivity.
  - vm_compute. lia.
  - intros _. exists "file-0". split; reflexivity.
Defined.

(** Two uploads of the same bytes with dedup on.  While the service is
    down, the first one records nothing, so the second one sends a
    request again and the project ends with no row for the hash.  And in
    a project that already holds two rows with the hash (two uploads with
    dedup off), both uploads are skipped and the two rows stay. *)
Lemma upload_twice_without_one_row :
  (rows_with_sha "p-apollo" "sha256:%PDF" (App.conn Scenario.outage_second) = [] ∧
   App.calls Scenario.outage_first
   = [OpenAI.files_create "PRD_v1.2.pdf" ["%"; "P"; "D"; "F"]%byte "assistants"] ∧
   App.calls Scenario.outage_second
   = [OpenAI.files_create "PRD_v1.2.pdf" ["%"; "P"; "D"; "F"]%byte "assistants";
      OpenAI.files_create "PRD_copy.pdf" ["%"; "P"; "D"; "F"]%byte "assistants"]) ∧
  (length (rows_with_sha "p-apollo" "sha256:%PDF" (App.conn Scenario.doubled_second)) = 2 ∧
   App.calls Scenario.doubled_second = App.calls Scenario.doubled).
Proof. split_and!; vm_compute; reflexivity. Qed.

(** C1. The reconciliation half of the claim holds and the repair half
    does not, on the project with the local id file-0 whose vector store
    lists file-0 and ext-doc-9.  The run after a click on the sync button
    sends the listing request, reports nothing for "local only" and
    ext-doc-9 for "remote only", offers the repair and leaves the tables as
    they were.  The run after a click on the repair button then offered has
    the sync button not pressed: it returns with the world unchanged, so the
    project's ids are still file-0 alone and not the union with the listed
    ids. *)
Theorem repair_click_changes_nothing :
  @App.tab_sync Scenario.runtime Scenario.service "p-apollo" "idx-2" true false
    Scenario.stocked
  = (Ok tt, Scenario.reconciled) ∧
  App.conn Scenario.reconciled = App.conn Scenario.stocked ∧
  @App.tab_sync Scenario.runtime Scenario.service "p-apollo" "idx-2" false true
    Scenario.reconciled
  = (Ok tt, Scenario.reconciled) ∧
  file_id <$> select_project_files "p-apollo"
                (App.conn (snd (@App.tab_sync Scenario.runtime Scenario.service "p-apollo"
                                  "idx-2" false true Scenario.reconciled)))
  = ["file-0"] ∧
  OpenAI.file_id <$> Scenario.listed = ["file-0"; "ext-doc-9"].
Proof. split_and!; vm_compute; reflexivity. Qed.

(** The out-of-band scenario of the specification in one run with both
    buttons reported pressed: the id is reported, and the repair loop
    records it with the id as file name and no hash. *)
Example out_of_band_document_is_repaired :
  App.missing_in_local (select_project_files "p-apollo" (App.conn Scenario.stocked))
    Scenario.listed = ["ext-doc-9"] ∧
  App.missing_in_remote (select_project_files "p-apollo" (App.conn Scenario.stocked))
    Scenario.listed = [] ∧
  project_files
    (App.conn (snd (@App.tab_sync Scenario.runtime Scenario.service "p-apollo" "idx-2" true true
                      Scenario.stocked)))
  = [ProjectFile "p-apollo" "file-0" "PRD_v1.2.pdf" (Some "sha256:%PDF") "2026-01-01T00:00:0";
     ProjectFile "p-apollo" "ext-doc-9" "ext-doc-9" None "2026-01-01T00:00:1"].
Proof. split_and!; vm_compute; reflexivity. Qed.

(** ** The console as a whole: what every handler does to the tables *)

Section Steps.
Import App Schema.
Context `{Runtime} `{OpenAI.Client}.
Context (R : relation database) `{!PreOrder R}.

Lemma steps_same {A} (m : prog world A) :
  (∀ w, conn (snd (m w)) = conn w) → steps R m.
Proof. intros Hm w. by rewrite Hm. Qed.

Lemma steps_bind {A B} (m : prog world A) (f : A → prog world B) :
  steps R m → (∀ a, steps R (f a)) → steps R (m ≫= f).
Proof.
  intros Hm Hf w. specialize (Hm w). unfold mbind, prog_bind.
  destruct (m w) as [[a|e] w']; cbn in *; [|done].
  etrans; [exact Hm|apply Hf].
Qed.

Lemma steps_try_except {A} (m : prog world A) (h : exn → prog world A) :
  steps R m → (∀ e, steps R (h e)) → steps R (try_except m h).
Proof.
  intros Hm Hh w. specialize (Hm w). unfold try_except.
  destruct (m w) as [[a|e] w']; cbn in *; [done|].
  destruct (is_Exception e); [|done]. etrans; [exact Hm|apply Hh].
Qed.

Lemma steps_for_each {A} (xs : list A) (body : A → prog world unit) :
  (∀ x, steps R (body x)) → steps R (for_each xs body).
Proof.
  intros Hbody. induction xs as [|x xs IH]; [by apply steps_same|].
  cbn [for_each]. by apply steps_bind.
Qed.

Lemma steps_write (f : database → database) :
  (∀ db, R db (f db)) → steps R (modify (λ w, set_conn (f (conn w)) w)).
Proof. intros Hf w. apply Hf. Qed.

Section Handlers.
Hypothesis R_insert : ∀ p db db', insert_project p db = Ok db' → R db db'.
Hypothesis R_rename : ∀ new_name ts pid db, R db (update_project_name new_name ts pid db).
Hypothesis R_archive : ∀ ts pid db, R db (update_project_archived ts pid db).
Hypothesis R_add : ∀ r db, R db (insert_or_replace_project_file r db).
Hypothesis R_remove : ∀ pid fid db, R db (delete_project_file pid fid db).

Lemma steps_db_create_project name vs : steps R (db_create_project name vs).
Proof.
  intros w. unfold db_create_project, uuid_uuid4, now_iso. run.
  destruct (insert_project _ _) as [db|e] eqn:Hins; run; [|done].
  by apply R_insert in Hins.
Qed.

Lemma steps_db_add_project_file pid fid fn sha : steps R (db_add_project_file pid fid fn sha).
Proof. intros w. apply R_add. Qed.

Lemma steps_project_by_id pid : steps R (project_by_id pid).
Proof.
  apply steps_same. intros w. unfold project_by_id, db_list_projects. run.
  by destruct (filter _ _).
Qed.

Lemma steps_sidebar_create new_name clicked : steps R (sidebar_create new_name clicked).
Proof.
  unfold sidebar_create. destruct (button _ _); [|by apply steps_same].
  apply steps_try_except; [|intros e; by apply steps_same].
  apply steps_bind.
  { apply steps_same. intros w. unfold request. by destruct (OpenAI.on_vector_stores_create _ _). }
  intros vs. apply steps_bind; [apply steps_db_create_project|].
  intros pid. by apply steps_same.
Qed.

Lemma steps_sidebar_edit rename_to rename_clicked confirm archive_clicked :
  steps R (sidebar_edit rename_to rename_clicked confirm archive_clicked).
Proof.
  unfold sidebar_edit. apply steps_bind; [by apply steps_same|]. intros w0.
  destruct (selected_project_id w0) as [[|c s]|]; try by apply steps_same.
  apply steps_bind; [apply steps_project_by_id|]. intros _.
  apply steps_bind.
  - destruct (button _ _); [|by apply steps_same].
    apply steps_bind; [|intros; by apply steps_same].
    intros w. apply R_rename.
  - intros _. destruct (button _ _); [|by apply steps_same].
    apply steps_bind; [|intros; by apply steps_same].
    intros w. apply R_archive.
Qed.

Lemma steps_upload_one pid vs dedup uf : steps R (upload_one pid vs dedup uf).
Proof.
  unfold upload_one. apply steps_try_except; [|intros e; by apply steps_same].
  cbn zeta. apply steps_bind.
  { destruct dedup; by apply steps_same. }
  intros [|]; [by apply steps_same|].
  apply steps_bind.
  { apply steps_same. intros w. unfold request. by destruct (OpenAI.on_files_create _ _ _ _). }
  intros f_id. apply steps_bind.
  { apply steps_same. intros w. unfold request.
    by destruct (OpenAI.on_file_batches_create _ _ _). }
  intros _. apply steps_bind; [apply steps_db_add_project_file|].
  intros _. by apply steps_same.
Qed.

Lemma steps_tab_upload pid vs uploads dedup clicked :
  steps R (tab_upload pid vs uploads dedup clicked).
Proof.
  unfold tab_upload. destruct (button _ _); [|by apply steps_same].
  apply steps_for_each. intros uf. apply steps_upload_one.
Qed.

Lemma steps_tab_list pid vs fid confirm clicked : steps R (tab_list pid vs fid confirm clicked).
Proof.
  unfold tab_list. apply steps_bind; [by apply steps_same|]. intros rows.
  apply steps_bind.
  { destruct (nonempty rows); by apply steps_same. }
  intros _. destruct (button _ _); [|by apply steps_same].
  apply steps_try_except; [|intros e; by apply steps_same].
  apply steps_bind.
  { apply steps_same. intros w. unfold request. by destruct (OpenAI.on_files_delete _ _ _). }
  intros _. apply steps_bind; [|intros; by apply steps_same].
  intros w. apply R_remove.
Qed.

Lemma steps_tab_sync pid vs sync_clicked repair_clicked :
  steps R (tab_sync pid vs sync_clicked repair_clicked).
Proof.
  unfold tab_sync. destruct (button sync_clicked _); [|by apply steps_same].
  apply steps_try_except; [|intros e; by apply steps_same].
  apply steps_bind.
  { apply steps_same. intros w. unfold request. by destruct (OpenAI.on_files_list _ _ _). }
  intros remote. apply steps_bind; [by apply steps_same|]. intros local.
  apply steps_bind; [by apply steps_same|]. intros _.
  apply steps_bind; [by apply steps_same|]. intros _.
  destruct (nonempty _); [|by apply steps_same].
  apply steps_bind; [by apply steps_same|]. intros _.
  destruct (button repair_clicked _); [|by apply steps_same].
  apply steps_bind; [|intros; by apply steps_same].
  apply steps_for_each. intros fid. apply steps_db_add_project_file.
Qed.

Lemma steps_main uploads dedup do_clicked fid confirm remove_clicked sync_clicked repair_clicked :
  steps R (main uploads dedup do_clicked fid confirm remove_clicked sync_clicked repair_clicked).
Proof.
  unfold main. apply steps_bind; [by apply steps_same|]. intros w0.
  destruct (selected_project_id w0) as [[|c s]|]; try by apply steps_same.
  apply steps_bind; [apply steps_project_by_id|]. intros project.
  apply steps_bind; [apply steps_tab_upload|]. intros _.
  apply steps_bind; [apply steps_tab_list|]. intros _. apply steps_tab_sync.
Qed.

End Handlers.
End Steps.

Section ConsoleInvariants.
Import App Schema.
Context `{Runtime} `{OpenAI.Client}.

Local Set Warnings "-clear-no-such-hyp".

#[local] Instance keeps_preorder (I : database → Prop) : PreOrder (keeps I).
Proof. split; unfold keeps; [intros db; tauto|intros a b c; tauto]. Qed.

#[local] Instance bindings_kept_preorder : PreOrder bindings_kept.
Proof.
  split.
  - intros db i p Hi. eauto.
  - intros a b c Hab Hbc i p Hi.
    destruct (Hab i p Hi) as (p' & Hi' & E1 & E2 & E3).
    destruct (Hbc i p' Hi') as (p'' & Hi'' & F1 & F2 & F3).
    exists p''. split_and!; [done|congruence..].
Qed.

(** The statements of the catalog keep the three uniqueness constraints. *)
Lemma insert_project_schema p db db' :
  insert_project p db = Ok db' → schema_ok db → schema_ok db'.
Proof.
  unfold insert_project, schema_ok, project_ids_unique, unique_binding, file_keys_unique.
  repeat case_bool_decide; try discriminate. intros [= <-] (Hid & Hvs & Hfiles). cbn.
  rewrite !fmap_app. split_and!; [| |done].
  - apply NoDup_app. split_and!; [done| |apply NoDup_singleton].
    intros x Hx [->|[]%elem_of_nil]%elem_of_cons.
    apply list_elem_of_fmap in Hx as (q & Hq & Hin).
    match goal with Hno : ¬ Exists (λ q, Catalog.project_id q = _) _ |- _ => apply Hno end.
    apply Exists_exists. eauto.
  - apply NoDup_app. split_and!; [done| |apply NoDup_singleton].
    intros x Hx [->|[]%elem_of_nil]%elem_of_cons.
    apply list_elem_of_fmap in Hx as (q & Hq & Hin).
    match goal with Hno : ¬ Exists (λ q, vector_store_id q = _) _ |- _ => apply Hno end.
    apply Exists_exists. eauto.
Qed.

Lemma update_project_name_schema new_name ts pid db :
  schema_ok db → schema_ok (update_project_name new_name ts pid db).
Proof.
  unfold update_project_name, schema_ok, project_ids_unique, unique_binding, file_keys_unique.
  cbn. rewrite <- !list_fmap_compose.
  rewrite (list_fmap_ext (Catalog.project_id ∘ _) Catalog.project_id (projects db))
    by (intros i p _; cbn; by destruct (decide _)).
  rewrite (list_fmap_ext (vector_store_id ∘ _) vector_store_id (projects db))
    by (intros i p _; cbn; by destruct (decide _)).
  done.
Qed.

Lemma update_project_archived_schema ts pid db :
  schema_ok db → schema_ok (update_project_archived ts pid db).
Proof.
  unfold update_project_archived, schema_ok, project_ids_unique, unique_binding,
    file_keys_unique.
  cbn. rewrite <- !list_fmap_compose.
  rewrite (list_fmap_ext (Catalog.project_id ∘ _) Catalog.project_id (projects db))
    by (intros i p _; cbn; by destruct (decide _)).
  rewrite (list_fmap_ext (vector_store_id ∘ _) vector_store_id (projects db))
    by (intros i p _; cbn; by destruct (decide _)).
  done.
Qed.

Lemma insert_or_replace_project_file_schema r db :
  schema_ok db → schema_ok (insert_or_replace_project_file r db).
Proof.
  unfold insert_or_replace_project_file, schema_ok, project_ids_unique, unique_binding,
    file_keys_unique.
  intros (Hid & Hvs & Hfiles). cbn. split_and!; [done..|].
  rewrite fmap_app. apply NoDup_app. split_and!; [|  |apply NoDup_singleton].
  - eapply sublist_NoDup; [exact Hfiles|]. apply fmap_sublist, sublist_filter.
  - intros k Hk [->|[]%elem_of_nil]%elem_of_cons.
    apply list_elem_of_fmap in Hk as (q & [= Hp Hf] & [Hne _]%list_elem_of_filter).
    apply Hne. by rewrite Hp, Hf.
Qed.

Lemma delete_project_file_schema pid fid db :
  schema_ok db → schema_ok (delete_project_file pid fid db).
Proof.
  unfold delete_project_file, schema_ok, project_ids_unique, unique_binding, file_keys_unique.
  intros (Hid & Hvs & Hfiles). cbn. split_and!; [done..|].
  eapply sublist_NoDup; [exact Hfiles|]. apply fmap_sublist, sublist_filter.
Qed.

(** X1. Every handler of the console keeps the schema's uniqueness
    constraints: distinct project ids, distinct vector store bindings and
    distinct (project, file) keys before a run are so after it, whatever
    the service answers. *)
Theorem console_keeps_schema new_name create_clicked rename_to rename_clicked confirm_archive
    archive_clicked uploads dedup do_clicked fid confirm remove_clicked sync_clicked
    repair_clicked w :
  schema_ok (conn w) →
  schema_ok (conn (snd (sidebar_create new_name create_clicked w))) ∧
  schema_ok (conn (snd (sidebar_edit rename_to rename_clicked confirm_archive
                          archive_clicked w))) ∧
  schema_ok (conn (snd (main uploads dedup do_clicked fid confirm remove_clicked sync_clicked
                          repair_clicked w))).
Proof.
  intros Hok.
  assert (Hins : ∀ p db db', insert_project p db = Ok db' → keeps schema_ok db db')
    by (intros p db db' Hp; exact (insert_project_schema p db db' Hp)).
  split_and!.
  - by apply (steps_sidebar_create (keeps schema_ok) Hins).
  - by apply (steps_sidebar_edit (keeps schema_ok) update_project_name_schema
                update_project_archived_schema).
  - by apply (steps_main (keeps schema_ok) insert_or_replace_project_file_schema
                delete_project_file_schema).
Qed.

(** X2. No handler of the console deletes a project row or rebinds one:
    after any run, every row of [projects] is still at its place with the
    same [project_id], [vector_store_id] and [created_at]. *)
Theorem console_never_rebinds_a_project new_name create_clicked rename_to rename_clicked
    confirm_archive archive_clicked uploads dedup do_clicked fid confirm remove_clicked
    sync_clicked repair_clicked w :
  bindings_kept (conn w) (conn (snd (sidebar_create new_name create_clicked w))) ∧
  bindings_kept (conn w)
    (conn (snd (sidebar_edit rename_to rename_clicked confirm_archive archive_clicked w))) ∧
  bindings_kept (conn w)
    (conn (snd (main uploads dedup do_clicked fid confirm remove_clicked sync_clicked
                  repair_clicked w))).
Proof.
  assert (Hins : ∀ p db db', insert_project p db = Ok db' → bindings_kept db db').
  { intros p db db'. unfold insert_project. repeat case_bool_decide; try discriminate.
    intros [= <-] i q Hi. exists q. cbn. split_and!; try done.
    by apply lookup_app_l_Some. }
  assert (Hren : ∀ n ts pid db, bindings_kept db (update_project_name n ts pid db)).
  { intros n ts pid db i q Hi. unfold update_project_name. cbn.
    rewrite list_lookup_fmap, Hi. cbn. eexists. split; [done|]. by destruct (decide _). }
  assert (Harc : ∀ ts pid db, bindings_kept db (update_project_archived ts pid db)).
  { intros ts pid db i q Hi. unfold update_project_archived. cbn.
    rewrite list_lookup_fmap, Hi. cbn. eexists. split; [done|]. by destruct (decide _). }
  assert (Hadd : ∀ r db, bindings_kept db (insert_or_replace_project_file r db))
    by (intros r db i q Hi; exists q; by cbn).
  assert (Hdel : ∀ pid fid' db, bindings_kept db (delete_project_file pid fid' db))
    by (intros pid fid' db i q Hi; exists q; by cbn).
  split_and!.
  - by apply (steps_sidebar_create bindings_kept Hins).
  - by apply (steps_sidebar_edit bindings_kept Hren Harc).
  - by apply (steps_main bindings_kept Hadd Hdel).
Qed.

End ConsoleInvariants.

(** ** Catalog helpers: round trips and listings *)

Lemma filter_all {A} (P : A → Prop) `{∀ x, Decision (P x)} (l : list A) :
  (∀ x, x ∈ l → P x) → filter P l = l.
Proof.
  induction l as [|x l IH]; intros Hall; [done|].
  rewrite filter_cons_True by (apply Hall; by left).
  f_equal. apply IH. intros y Hy. apply Hall. by right.
Qed.

Section CatalogRoundTrips.
Import App.
Context `{Runtime} `{OpenAI.Client}.

Local Set Warnings "-clear-no-such-hyp".
Local Arguments select_project_files : simpl never.
Local Arguments select_projects : simpl never.
Local Arguments insert_or_replace_project_file : simpl never.
Local Arguments delete_project_file : simpl never.
Local Arguments select_active_vector_store_id : simpl never.

Lemma elem_of_select_project_files pid db r :
  r ∈ select_project_files pid db ↔ r ∈ project_files db ∧ file_project_id r = pid.
Proof.
  unfold select_project_files, order_by_desc.
  rewrite merge_sort_Permutation, list_elem_of_filter. tauto.
Qed.

(** X3. [db_add_project_file] is an upsert that the listing and the hash
    check see at once: the new row is listed for its project, it is the
    only listed row with its [file_id], rows with another key are as
    before, and [db_has_sha_in_project] finds its hash. *)
Theorem add_then_list pid fid fn sha w :
  let w' := snd (db_add_project_file pid fid fn sha w) in
  let row := ProjectFile pid fid fn sha (utcnow_isoformat (clock_reads w)) in
  fst (db_add_project_file pid fid fn sha w) = Ok tt ∧
  fst (db_list_project_files pid w') = Ok (select_project_files pid (conn w')) ∧
  row ∈ select_project_files pid (conn w') ∧
  (∀ r, r ∈ select_project_files pid (conn w') → file_id r = fid → r = row) ∧
  (∀ r, ¬ (file_project_id r = pid ∧ file_id r = fid) →
        r ∈ project_files (conn w') ↔ r ∈ project_files (conn w)) ∧
  (∀ h, sha = Some h → fst (db_has_sha_in_project pid h w') = Ok true).
Proof.
  intros w' row. subst w'. rewrite db_add_project_file_run. cbn.
  split_and!; [done|done| | | |].
  - apply elem_of_select_project_files. unfold insert_or_replace_project_file. cbn.
    split; [|done]. apply elem_of_app. right. by apply list_elem_of_singleton.
  - intros r [Hin Hp]%elem_of_select_project_files Hf.
    unfold insert_or_replace_project_file in Hin. cbn in Hin.
    apply elem_of_app in Hin as [[Hne _]%list_elem_of_filter|Hin].
    + destruct Hne. by cbn.
    + by apply list_elem_of_singleton in Hin.
  - intros r Hne. unfold insert_or_replace_project_file. cbn.
    rewrite elem_of_app, list_elem_of_filter, list_elem_of_singleton.
    split; [intros [[_ ?]| ->]; [done|by destruct Hne]|intros ?; left; by split].
  - intros h ->. unfold db_has_sha_in_project, exists_sha_in_project,
      insert_or_replace_project_file. run. f_equal.
    apply bool_decide_eq_true. apply Exists_app. right. by left.
Qed.

Lemma local_file_ids_delete pid fid db :
  local_file_ids (select_project_files pid (delete_project_file pid fid db))
  = local_file_ids (select_project_files pid db) ∖ {[fid]}.
Proof.
  apply set_eq. intros x.
  rewrite elem_of_difference, elem_of_singleton, !elem_of_local_file_ids.
  unfold delete_project_file. cbn. setoid_rewrite list_elem_of_filter. split.
  - intros (r & [Hne Hin] & Hp & Hf). split; [eauto|]. intros ->. by apply Hne.
  - intros [(r & Hin & Hp & Hf) Hx]. exists r. split_and!; [|done..].
    intros [_ Hk]. apply Hx. congruence.
Qed.

(** X4. [db_remove_project_file] never raises; afterwards the project's
    listed ids are the former ones without the given id, the listings of
    other projects are as before, and when the id was not listed the
    tables are exactly as before. *)
Theorem remove_then_list pid fid w :
  let w' := snd (db_remove_project_file pid fid w) in
  fst (db_remove_project_file pid fid w) = Ok tt ∧
  local_file_ids (select_project_files pid (conn w'))
  = local_file_ids (select_project_files pid (conn w)) ∖ {[fid]} ∧
  (∀ pid', pid' ≠ pid →
     select_project_files pid' (conn w') = select_project_files pid' (conn w)) ∧
  (fid ∉ local_file_ids (select_project_files pid (conn w)) → conn w' = conn w).
Proof.
  intros w'. subst w'. unfold db_remove_project_file. run.
  split_and!; [done|apply local_file_ids_delete| |]; unfold delete_project_file.
  - intros pid' Hne. unfold select_project_files. cbn. f_equal.
    rewrite list_filter_filter. apply list_filter_iff. intros r. split; [tauto|].
    intros Hp. split; try done. intros [Hk _]. apply Hne. congruence.
  - intros Hnot. destruct (conn w) as [ps fs]. cbn in *. f_equal.
    apply filter_all. intros r Hin [Hp Hf]. apply Hnot.
    apply elem_of_local_file_ids. cbn. eauto.
Qed.

(** X5. Adding a file whose id the project does not list and removing it
    again restores the tables. *)
Theorem add_then_remove pid fid fn sha w :
  fid ∉ local_file_ids (select_project_files pid (conn w)) →
  conn (snd (db_remove_project_file pid fid (snd (db_add_project_file pid fid fn sha w))))
  = conn w.
Proof.
  intros Hnot. rewrite db_add_project_file_run. unfold db_remove_project_file. run.
  unfold delete_project_file, insert_or_replace_project_file.
  destruct (conn w) as [ps fs]. cbn in *. f_equal.
  rewrite filter_app, filter_cons_False, filter_nil, app_nil_r by (cbn; tauto).
  assert (Hall : filter (λ q, ¬ (file_project_id q = pid ∧ file_id q = fid)) fs = fs).
  { apply filter_all. intros r Hin [Hp Hf]. apply Hnot.
    apply elem_of_local_file_ids. cbn. eauto. }
  by rewrite !Hall.
Qed.

(** X6. [db_has_sha_in_project] reads only: it answers [True] exactly
    when a row that [db_list_project_files] lists for the project carries
    the hash, so rows recorded without a hash never count. *)
Theorem has_sha_iff_listed pid sha w :
  snd (db_has_sha_in_project pid sha w) = w ∧
  ∃ b, fst (db_has_sha_in_project pid sha w) = Ok b ∧
       (b = true ↔ ∃ r, r ∈ select_project_files pid (conn w) ∧ sha256 r = Some sha).
Proof.
  unfold db_has_sha_in_project, exists_sha_in_project. run. split; [done|].
  eexists. split; [done|]. rewrite bool_decide_eq_true, Exists_exists.
  setoid_rewrite elem_of_select_project_files. naive_solver.
Qed.

(** X7. After [db_archive_project], the project is gone from the active
    listing, and [POST /chat] for it answers 404 without sending a
    request. *)
Theorem archived_project_is_hidden pid user_id message sent w :
  let db := conn (snd (db_archive_project pid w)) in
  (∀ p, p ∈ select_projects true db → Catalog.project_id p ≠ pid) ∧
  ApiServer.chat
    {| ApiServer.project_id := pid; ApiServer.user_id := user_id;
       ApiServer.message := message |}
    (ApiServer.World (Some db) sent)
  = (Raise (HTTPException 404 ("project_id not found or inactive: " +:+ pid)),
     ApiServer.World (Some db) sent).
Proof.
  intros db.
  assert (Harchived : ∀ p, p ∈ projects db → Catalog.project_id p = pid → status p ≠ "active").
  { subst db. unfold db_archive_project, now_iso, update_project_archived. run.
    intros p (q & -> & Hq)%list_elem_of_fmap. destruct (decide _); [done|]. cbn. tauto. }
  split.
  - intros p Hp Hid. unfold select_projects, order_by_desc in Hp.
    rewrite merge_sort_Permutation in Hp. apply list_elem_of_filter in Hp as [Hst Hin].
    by apply (Harchived p).
  - unfold ApiServer.chat, ApiServer.get_vector_store_id, ApiServer.get_conn. run.
    by rewrite (select_active_none _ _ Harchived).
Qed.

(** X8. A project that [db_create_project] has created with a non-empty
    vector store id is found by the console's lookup with the given name
    and status active, and the endpoint resolves it to that vector store. *)
Theorem created_project_resolves name vs w pid w1 sent :
  db_create_project name vs w = (Ok pid, w1) →
  vs ≠ "" →
  fst (project_by_id pid w1)
  = Ok (Project pid name vs "active" (utcnow_isoformat (clock_reads w))
          (utcnow_isoformat (clock_reads w))) ∧
  ApiServer.get_vector_store_id pid (ApiServer.World (Some (conn w1)) sent)
  = (Ok vs, ApiServer.World (Some (conn w1)) sent).
Proof.
  unfold db_create_project, uuid_uuid4, now_iso, insert_project. run.
  repeat case_bool_decide; run; try discriminate.
  intros [= <- <-] Hvs. cbn.
  match goal with Hno : ¬ Exists (λ q, Catalog.project_id q = _) _ |- _ =>
    pose proof (proj2 (filter_nil_iff _ _) Hno) as Hfresh end.
  split.
  - unfold project_by_id, db_list_projects, select_projects, order_by_desc. run.
    match goal with |- context [filter ?P (merge_sort ?Rel ?l)] =>
      assert (Hone : filter P (merge_sort Rel l) = [Project (uuid4 (uuid_draws w)) name vs
                "active" (utcnow_isoformat (clock_reads w)) (utcnow_isoformat (clock_reads w))])
    end.
    { apply Permutation_singleton_r. rewrite merge_sort_Permutation.
      by rewrite filter_app, Hfresh, filter_cons_True by done. }
    by rewrite Hone.
  - unfold ApiServer.get_vector_store_id, ApiServer.get_conn, select_active_vector_store_id.
    run. rewrite filter_app, filter_cons_True by done.
    rewrite (proj2 (filter_nil_iff _ _)).
    + cbn. by destruct vs.
    + intros Hex. apply filter_nil_iff in Hfresh. apply Hfresh.
      eapply Exists_impl; [exact Hex|]. cbn. tauto.
Qed.

End CatalogRoundTrips.

(** ** Console handlers: uploads, removal and reconciliation in general *)

Section ConsoleHandlers.
Import App.
Context `{Runtime} `{OpenAI.Client}.

Local Set Warnings "-clear-no-such-hyp".
Local Arguments select_project_files : simpl never.
Local Arguments insert_or_replace_project_file : simpl never.
Local Arguments delete_project_file : simpl never.
Local Arguments exists_sha_in_project : simpl never.
Local Arguments missing_in_local : simpl never.
Local Arguments missing_in_remote : simpl never.
Local Arguments ids_or_none : simpl never.
Local Arguments db_add_project_file : simpl never.

(** One upload returns and renders one element, whatever happens. *)
Lemma upload_one_outcome pid vs dedup uf w :
  ∃ w', upload_one pid vs dedup uf w = (Ok tt, w') ∧
        length (page w') = S (length (page w)).
Proof.
  unfold upload_one, db_has_sha_in_project, st, request. run.
  assert (Hskip : ∀ b : bool, b = true ∨ b = false) by (intros []; auto).
  destruct dedup; run;
    try (destruct (Hskip (exists_sha_in_project pid (sha256_bytes (getvalue uf)) (conn w)))
           as [-> | ->]; run);
    try (destruct (OpenAI.on_files_create _ _ _ _) as [msg|f_id]; run);
    try (destruct (OpenAI.on_file_batches_create _ _ _) as [msg|[]]; run);
    rewrite ?db_add_project_file_run; run;
    (eexists; split; [reflexivity|]; cbn; rewrite length_app; cbn; lia).
Qed.

(** X9. [tab_upload] never raises: a failure on one file is reported
    and the loop goes on, so a run with the button renders exactly one
    element per selected file, and a run without it renders none. *)
Theorem tab_upload_reports_every_file pid vs uploads dedup clicked w :
  ∃ w', tab_upload pid vs uploads dedup clicked w = (Ok tt, w') ∧
        length (page w') = length (page w) + (if clicked then length uploads else 0).
Proof.
  unfold tab_upload, button. destruct clicked; cbn [andb]; [|run; eauto with lia].
  destruct uploads as [|uf uploads]; cbn [nonempty negb]; [run; eauto with lia|].
  generalize (uf :: uploads) as ufs. clear uf uploads. intros ufs. revert w.
  induction ufs as [|uf ufs IH]; intros w; [run; eauto with lia|].
  cbn [for_each]. unfold mbind, prog_bind.
  destruct (upload_one_outcome pid vs dedup uf w) as (w1 & -> & Hlen1).
  destruct (IH w1) as (w' & -> & Hlen). exists w'. split; [done|]. cbn. lia.
Qed.

(** X10. When the file upload returns and the registration in the
    vector store raises, [upload_one] reports the failure and records
    nothing: both requests were sent, the uploaded file stays at the
    service, and no request is made to take it back. *)
Theorem failed_registration_leaves_the_upload pid vs dedup uf w f_id msg :
  dedup = false ∨ rows_with_sha pid (sha256_bytes (getvalue uf)) (conn w) = [] →
  OpenAI.on_files_create (calls w) (name uf) (getvalue uf) "assistants" = inr f_id →
  OpenAI.on_file_batches_create
    (calls w ++ [OpenAI.files_create (name uf) (getvalue uf) "assistants"]) vs [f_id]
    = inl msg →
  upload_one pid vs dedup uf w
  = (Ok tt,
     World (conn w)
       (calls w ++ [OpenAI.files_create (name uf) (getvalue uf) "assistants";
                    OpenAI.vector_stores_file_batches_create vs [f_id]])
       (clock_reads w) (uuid_draws w)
       (page w ++ [st_error ("❌ " +:+ name uf +:+ " 失敗：" +:+ msg)])
       (selected_project_id w)).
Proof.
  intros Hdedup Hfile Hbatch. unfold upload_one, db_has_sha_in_project, st, request. run.
  assert (Hskip : (if dedup then exists_sha_in_project pid (sha256_bytes (getvalue uf)) (conn w)
                   else false) = false).
  { destruct dedup; [|done]. destruct Hdedup as [|Hrows]; [done|].
    by apply exists_sha_rows. }
  destruct dedup; run; rewrite ?Hskip; run; rewrite Hfile; run; rewrite Hbatch; run;
    unfold render, log_call; cbn; by rewrite <- app_assoc.
Qed.

(** X11. With dedup off the hash is not consulted: an upload whose two
    requests return, under a file id the project does not list yet, adds
    one more row with the hash, also when rows with that hash exist. *)
Theorem upload_without_dedup_adds_a_row pid vs uf w f_id :
  OpenAI.on_files_create (calls w) (name uf) (getvalue uf) "assistants" = inr f_id →
  OpenAI.on_file_batches_create
    (calls w ++ [OpenAI.files_create (name uf) (getvalue uf) "assistants"]) vs [f_id]
    = inr tt →
  f_id ∉ local_file_ids (select_project_files pid (conn w)) →
  length (rows_with_sha pid (sha256_bytes (getvalue uf))
            (conn (snd (tab_upload pid vs [uf] false true w))))
  = S (length (rows_with_sha pid (sha256_bytes (getvalue uf)) (conn w))).
Proof.
  intros Hfile Hbatch Hfresh.
  unfold tab_upload, upload_one, st, request. run. rewrite Hfile. run. rewrite Hbatch. run.
  rewrite db_add_project_file_run. run.
  unfold rows_with_sha, insert_or_replace_project_file. cbn.
  rewrite filter_app, filter_cons_True, filter_nil by (cbn; done).
  rewrite (filter_all (λ q, ¬ (file_project_id q = pid ∧ file_id q = f_id))).
  - rewrite length_app. cbn. lia.
  - intros r Hin [Hp Hf]. apply Hfresh. apply elem_of_local_file_ids. eauto.
Qed.

(** X12. The removal needs the confirmation and a file id that is not
    blank: without either, [tab_list] sends no request and leaves the
    tables alone, whatever was clicked. *)
Theorem remove_needs_confirmation pid vs fid confirm clicked w :
  confirm = false ∨ strip fid = "" →
  ∃ w', tab_list pid vs fid confirm clicked w = (Ok tt, w') ∧
        calls w' = calls w ∧ conn w' = conn w.
Proof.
  intros Hguard. unfold tab_list, db_list_project_files, st. run.
  assert (Hoff : button clicked (negb (truthy (strip fid)) || negb confirm) = false).
  { unfold button, truthy. destruct clicked; [|done]. cbn [andb].
    destruct Hguard as [->| ->]; [by rewrite orb_true_r|by rewrite bool_decide_eq_true_2]. }
  rewrite Hoff. destruct (nonempty _); run; eauto.
Qed.

(** X13. A confirmed removal whose remote call returns: the request is
    the one [vector_stores.files.delete] for the stripped id, the
    project's listed ids are the former ones without that id, and the run
    ends in [st.rerun()]. *)
Theorem confirmed_removal pid vs fid w :
  strip fid ≠ "" →
  OpenAI.on_files_delete (calls w) vs (strip fid) = inr tt →
  fst (tab_list pid vs fid true true w) = Raise RerunException ∧
  calls (snd (tab_list pid vs fid true true w))
  = calls w ++ [OpenAI.vector_stores_files_delete vs (strip fid)] ∧
  local_file_ids (select_project_files pid (conn (snd (tab_list pid vs fid true true w))))
  = local_file_ids (select_project_files pid (conn w)) ∖ {[strip fid]}.
Proof.
  intros Hfid Hdel.
  pose proof (local_file_ids_delete pid (strip fid) (conn w)) as Hids.
  unfold tab_list, db_list_project_files, db_remove_project_file, st, st_rerun, request,
    button, truthy. run.
  rewrite bool_decide_eq_false_2 by done. cbn.
  destruct (nonempty _); run; rewrite Hdel; run; by rewrite Hids.
Qed.

(** The repair loop on ids that are distinct and not listed yet only
    appends placeholder rows. *)
Lemma repair_loop_appends pid ids w :
  NoDup ids →
  (∀ fid, fid ∈ ids → fid ∉ local_file_ids (select_project_files pid (conn w))) →
  ∃ w' added,
    for_each ids (λ fid, db_add_project_file pid fid fid None) w = (Ok tt, w') ∧
    project_files (conn w') = project_files (conn w) ++ added ∧
    projects (conn w') = projects (conn w) ∧
    Forall (λ r, file_project_id r = pid ∧ filename r = file_id r ∧ sha256 r = None) added ∧
    calls w' = calls w ∧ page w' = page w ∧ selected_project_id w' = selected_project_id w.
Proof.
  revert w. induction ids as [|fid ids IH]; intros w Hnd Hnew.
  - exists w, []. by rewrite app_nil_r.
  - apply NoDup_cons in Hnd as [Hfid Hnd].
    cbn [for_each]. unfold mbind, prog_bind. rewrite db_add_project_file_run.
    match goal with |- context [for_each ids _ ?w1] =>
      destruct (IH w1 Hnd) as (w' & added & -> & Hfiles & Hprojects & Hadded & Hcalls & Hpage
                                & Hsel) end.
    { intros fid' Hin. cbn. rewrite local_file_ids_insert.
      intros [->%elem_of_singleton|Hold]%elem_of_union; [done|].
      by apply (Hnew fid'); [right|]. }
    exists w', (ProjectFile pid fid fid None (utcnow_isoformat (clock_reads w)) :: added).
    split_and!; [done| |done| |done..].
    + rewrite Hfiles. unfold insert_or_replace_project_file. cbn.
      rewrite (filter_all (λ q, ¬ (file_project_id q = pid ∧ file_id q = fid))).
      * by rewrite <- app_assoc.
      * intros r Hin [Hp Hf]. apply (Hnew fid); [by left|].
        apply elem_of_local_file_ids. eauto.
    + by constructor.
Qed.

(** X14. A run of [tab_sync] changes no existing row and deletes none:
    [projects] is as before, [project_files] is the former table followed
    by the rows the repair added, each of them a placeholder for this
    project (file name = file id, no hash); and the only request it ever
    sends is the listing, once per run with the sync button. *)
Theorem sync_only_appends_placeholders pid vs sync_clicked repair_clicked w :
  ∃ added,
    project_files (conn (snd (tab_sync pid vs sync_clicked repair_clicked w)))
    = project_files (conn w) ++ added ∧
    Forall (λ r, file_project_id r = pid ∧ filename r = file_id r ∧ sha256 r = None) added ∧
    projects (conn (snd (tab_sync pid vs sync_clicked repair_clicked w)))
    = projects (conn w) ∧
    calls (snd (tab_sync pid vs sync_clicked repair_clicked w))
    = calls w ++ (if sync_clicked then [OpenAI.vector_stores_files_list vs 200] else []).
Proof.
  unfold tab_sync, db_list_project_files, write_ids, st, st_rerun, request, button.
  destruct sync_clicked; cbn [andb negb]; run;
    [|exists []; by rewrite !app_nil_r].
  destruct (OpenAI.on_files_list _ _ _) as [msg|remote]; run;
    [exists []; by rewrite !app_nil_r|].
  destruct (nonempty _); run; [|exists []; by rewrite !app_nil_r].
  destruct repair_clicked; cbn [andb]; run; [|exists []; by rewrite !app_nil_r].
  match goal with |- context [for_each ?ids ?f ?w1] =>
    destruct (repair_loop_appends pid ids w1)
      as (w' & added & -> & Hfiles & Hprojects & Hadded & Hcalls & _) end.
  - unfold missing_in_local, sorted. rewrite merge_sort_Permutation. apply NoDup_elements.
  - intros fid Hin. cbn.
    assert (Hset : fid ∈ (list_to_set (missing_in_local (select_project_files pid (conn w))
                                         remote) : gset string))
      by by apply elem_of_list_to_set.
    rewrite missing_in_local_set in Hset. set_solver.
  - exists added. run. by rewrite Hfiles, Hprojects, Hcalls.
Qed.

End ConsoleHandlers.

(** ** Console: creating a project, and the page without one *)

Section ConsoleEntry.
Import App.
Context `{Runtime} `{OpenAI.Client}.

Local Arguments select_projects : simpl never.


(** X16. Without a selected project that the catalog knows, [main] runs
    no tab: it stops ([st.stop()] when nothing is selected, [IndexError]
    when the selected id has no row), sends no request and leaves the
    tables alone. *)
Theorem main_needs_a_known_project uploads dedup do_clicked fid confirm remove_clicked
    sync_clicked repair_clicked w :
  (∀ p, p ∈ projects (conn w) → Some (Catalog.project_id p) ≠ selected_project_id w) →
  (fst (main uploads dedup do_clicked fid confirm remove_clicked sync_clicked repair_clicked w)
   = Raise StopException ∨
   fst (main uploads dedup do_clicked fid confirm remove_clicked sync_clicked repair_clicked w)
   = Raise (IndexError "list index out of range")) ∧
  conn (snd (main uploads dedup do_clicked fid confirm remove_clicked sync_clicked
               repair_clicked w)) = conn w ∧
  calls (snd (main uploads dedup do_clicked fid confirm remove_clicked sync_clicked
                repair_clicked w)) = calls w.
Proof.
  intros Hunknown. unfold main, project_by_id, db_list_projects, st, st_stop. run.
  destruct (selected_project_id w) as [[|c s]|] eqn:Hsel; run; [by auto| |by auto].
  rewrite (proj2 (filter_nil_iff _ _)); [run; by auto|].
  intros (p & Hp & Hid)%Exists_exists.
  unfold select_projects, order_by_desc in Hp. rewrite merge_sort_Permutation in Hp.
  apply (Hunknown p Hp). by rewrite Hid.
Qed.

End ConsoleEntry.

(** ** Answering endpoint in general *)

Section AnsweringGeneral.
Import ApiServer.
Context `{Runtime} `{OpenAI.Client}.

Local Arguments select_active_vector_store_id : simpl never.

(** What the lookup returns is the binding of an active row with the id. *)
Lemma select_active_some pid db vs :
  select_active_vector_store_id pid db = Some vs →
  ∃ p, p ∈ projects db ∧ Catalog.project_id p = pid ∧ status p = "active" ∧
       vector_store_id p = vs.
Proof.
  unfold select_active_vector_store_id.
  destruct (filter _ (projects db)) as [|p ps] eqn:Hfilter; [done|].
  intros [= <-]. exists p.
  assert (Hin : p ∈ filter (λ p, Catalog.project_id p = pid ∧ status p = "active") (projects db))
    by (rewrite Hfilter; by left).
  apply list_elem_of_filter in Hin as [[? ?] ?]. done.
Qed.

(** X17. When the project resolves and the request to the service
    raises, [chat] answers with the 500 [HTTPException] that carries the
    service's message, after that one request. *)
Theorem chat_gateway_failure db sent req c vs msg :
  select_active_vector_store_id (project_id req) db = Some (String c vs) →
  OpenAI.on_responses_create sent OPENAI_MODEL INSTRUCTIONS (message req) [String c vs]
    = inl msg →
  chat req (World (Some db) sent)
  = (Raise (HTTPException 500 ("OpenAI call failed: " +:+ msg)),
     World (Some db)
       (sent ++ [OpenAI.responses_create OPENAI_MODEL INSTRUCTIONS (message req)
                   [String c vs]])).
Proof.
  intros Hvs Hfail. unfold chat, get_vector_store_id, get_conn, request, log_call. run.
  rewrite Hvs. run. rewrite Hfail. reflexivity.
Qed.

(** X18. [chat] only reads the catalog, sends at most one request (the
    one [responses.create]), fails only with an [HTTPException] of status
    404 or 500 (the database file, when it is there, being readable), and
    does not look at [user_id]. *)
Theorem chat_reads_only req w :
  db_file (snd (chat req w)) = db_file w ∧
  (calls (snd (chat req w)) = calls w ∨
   ∃ vs, calls (snd (chat req w))
         = calls w ++ [OpenAI.responses_create OPENAI_MODEL INSTRUCTIONS (message req) [vs]]) ∧
  (∀ e, fst (chat req w) = Raise e →
        ∃ detail, e = HTTPException 404 detail ∨ e = HTTPException 500 detail) ∧
  (∀ other_user,
     chat {| project_id := project_id req; user_id := other_user; message := message req |} w
     = chat req w).
Proof.
  unfold chat, get_vector_store_id, get_conn, request, log_call. run.
  destruct (db_file w) as [db|] eqn:Hdb; run.
  - destruct (select_active_vector_store_id _ db) as [[|c vs]|]; run;
      try (split_and!; [by rewrite Hdb|by left|intros e [= <-]; eauto|done]).
    destruct (OpenAI.on_responses_create _ _ _ _ _) as [msg|resp]; run.
    + split_and!; [by rewrite Hdb|right; eauto|intros e [= <-]; eauto|done].
    + split_and!; [by rewrite Hdb|right; eauto|intros e [=]|done].
  - split_and!; [by rewrite Hdb|by left|intros e [= <-]; eauto|done].
Qed.

(** X19. A [chat] that returns has searched exactly one vector store: the
    non-empty one bound to an active row of the catalog with the
    request's project id. *)
Theorem chat_searches_the_projects_store req w r w' :
  chat req w = (Ok r, w') →
  ∃ db p,
    db_file w = Some db ∧ p ∈ projects db ∧
    Catalog.project_id p = project_id req ∧ status p = "active" ∧
    vector_store_id p ≠ "" ∧
    calls w' = calls w ++ [OpenAI.responses_create OPENAI_MODEL INSTRUCTIONS (message req)
                             [vector_store_id p]].
Proof.
  unfold chat, get_vector_store_id, get_conn, request, log_call. run.
  destruct (db_file w) as [db|] eqn:Hdb; run; [|discriminate].
  destruct (select_active_vector_store_id _ db) as [[|c vs]|] eqn:Hvs; run; try discriminate.
  destruct (OpenAI.on_responses_create _ _ _ _ _) as [msg|resp]; run; [discriminate|].
  intros [= <- <-]. apply select_active_some in Hvs as (p & Hp & Hid & Hst & Hvs).
  exists db, p. rewrite Hvs. split_and!; done.
Qed.

End AnsweringGeneral.

(** ** Voice bridge in general *)

Lemma prefix_spec (p s : string) :
  String.prefix p s = true ↔ ∃ post, s = p +:+ post.
Proof.
  revert s. induction p as [|a p IH]; intros s.
  - split; [intros _; by exists s|intros _; by destruct s].
  - destruct s as [|b s]; [split; [done|intros [post [=]]]|]. cbn.
    destruct (Ascii.ascii_dec a b) as [->|Hne].
    + rewrite IH. split; intros [post Hpost]; exists post.
      * by rewrite Hpost.
      * by injection Hpost.
    + split; [done|]. intros [post [= -> _]]. done.
Qed.

(** [contains] is Python's [in] on strings: some part of [s] is [sub]. *)
Lemma contains_spec (sub s : string) :
  contains sub s = true ↔ ∃ pre post, s = pre +:+ sub +:+ post.
Proof.
  induction s as [|a s IH]; cbn [contains]; rewrite orb_true_iff, prefix_spec.
  - split.
    + intros [[post Hpost]|]; [|done]. by exists "", post.
    + intros (pre & post & Hs). left. destruct pre; [eauto|done].
  - rewrite IH. split.
    + intros [[post Hpost]|(pre & post & ->)]; [by exists "", post|].
      by exists (String a pre), post.
    + intros ([|b pre] & post & Hs); [left; eauto|].
      right. injection Hs as -> ->. eauto.
Qed.

Section VoiceBridgeGeneral.
Import SttTts.
Context (pydub : bytes → string + bytes).

(** Reading [alternatives[0]] of every result, as a list function. *)
Lemma comprehension_first_alternatives rs w :
  comprehension (S := world)
    (λ result, match alternatives result with
               | a :: _ => mret (transcript a)
               | [] => raise (IndexError "list index out of range")
               end) rs w
  = match mapM (λ result, head (alternatives result)) rs with
    | Some alts => (Ok (transcript <$> alts), w)
    | None => (Raise (IndexError "list index out of range"), w)
    end.
Proof.
  induction rs as [|[[|a alts]] rs IH]; [done|done|].
  run. rewrite IH. by destruct (mapM _ rs).
Qed.

(** X20. On the Google path a response with results is turned into the
    transcripts of the first alternative of every result, joined by one
    space; when some result has no alternative, the [IndexError] is caught
    and the answer is [None]. *)
Theorem google_transcript_joins_first_alternatives recognize audio pcm_bytes lang rs w :
  pydub audio = inr pcm_bytes →
  recognize
      {| encoding := "LINEAR16"; sample_rate_hertz := 16000; language_code := lang;
         enable_automatic_punctuation := true |} pcm_bytes = inr {| results := rs |} →
  rs ≠ [] →
  fst (speech_to_text pydub (SpeechClient recognize) audio "google" lang w)
  = Ok ((λ alts, String.concat " " (transcript <$> alts))
          <$> mapM (λ result, head (alternatives result)) rs).
Proof.
  intros Hpcm Hres Hrs. unfold speech_to_text, _google_stt, invoke, get_recognize, print.
  rewrite decide_True by done. unfold try_except, mbind, prog_bind, lift.
  rewrite Hpcm. cbn -[comprehension]. rewrite Hres. cbn -[comprehension mapM].
  destruct rs as [|r rs]; [done|]. rewrite comprehension_first_alternatives.
  by destruct (mapM _ (r :: rs)).
Qed.

(** X21. The language that the OpenAI path asks Whisper for is "zh" when
    the language code contains "zh" or "cmn" and "en" for every other
    code; the recording is sent as it came, without pydub. *)
Theorem whisper_language_is_zh_or_en create speak audio lang w :
  ∃ language,
    invoked (snd (speech_to_text pydub (OpenAIClient create speak) audio "openai" lang w))
    = invoked w ++ [transcriptions_create_call "whisper-1" audio language] ∧
    (language = "zh" ∨ language = "en") ∧
    (language = "zh" ↔
     ∃ pre post, lang = pre +:+ "zh" +:+ post ∨ lang = pre +:+ "cmn" +:+ post).
Proof.
  unfold speech_to_text, _openai_stt, invoke, get_audio_transcriptions, print.
  rewrite decide_False, decide_True by done. run.
  destruct (contains "zh" lang) eqn:Hzh; [|destruct (contains "cmn" lang) eqn:Hcmn]; cbn.
  - exists "zh". split_and!; [by destruct (create _ _ _)|by left|].
    split; [intros _|done]. apply contains_spec in Hzh as (pre & post & ->). eauto.
  - exists "zh". split_and!; [by destruct (create _ _ _)|by left|].
    split; [intros _|done]. apply contains_spec in Hcmn as (pre & post & ->). eauto.
  - exists "en". split_and!; [by destruct (create _ _ _)|by right|].
    split; [done|]. intros (pre & post & [Hl|Hl]).
    + assert (contains "zh" lang = true) by (apply contains_spec; eauto). congruence.
    + assert (contains "cmn" lang = true) by (apply contains_spec; eauto). congruence.
Qed.

(** Both dispatchers return, after at most one provider call, and a
    printed error goes with the answer [None]. *)
Lemma speech_to_text_outcome c audio provider lang w :
  ∃ r w', speech_to_text pydub c audio provider lang w = (Ok r, w') ∧
          (invoked w' = invoked w ∨ ∃ call, invoked w' = invoked w ++ [call]) ∧
          (stdout w' = stdout w ∨ r = None).
Proof.
  unfold speech_to_text.
  destruct (decide (provider = "google")); [|destruct (decide (provider = "openai"))];
    [| |run; eauto 10].
  - unfold _google_stt, invoke, get_recognize, print.
    unfold try_except, mbind, prog_bind, lift.
    destruct (pydub audio) as [msg|pcm_bytes]; cbn -[comprehension mapM]; [eauto 10|].
    destruct c as [|recognize|synth|create speak]; cbn -[comprehension mapM]; eauto 10.
    destruct (recognize _ _) as [msg|[[|r rs]]]; cbn -[comprehension mapM]; eauto 10.
    rewrite comprehension_first_alternatives. destruct (mapM _ _); cbn; eauto 10.
  - unfold _openai_stt, invoke, get_audio_transcriptions, print. run.
    destruct c as [|recognize|synth|create speak]; run; eauto 10.
    destruct (create _ _ _) as [msg|t]; run; eauto 10.
Qed.

Lemma text_to_speech_outcome c text provider lang voice w :
  ∃ r w', text_to_speech c text provider lang voice w = (Ok r, w') ∧
          (invoked w' = invoked w ∨ ∃ call, invoked w' = invoked w ++ [call]) ∧
          (stdout w' = stdout w ∨ r = None).
Proof.
  unfold text_to_speech.
  destruct (decide (provider = "google")); [|destruct (decide (provider = "openai"))];
    [| |run; eauto 10].
  - unfold _google_tts, invoke, get_synthesize_speech, print. run.
    destruct c as [|recognize|synth|create speak]; run; eauto 10.
    destruct (synth _ _ _) as [msg|content]; run; eauto 10.
  - unfold _openai_tts, invoke, get_audio_speech, print. run.
    destruct c as [|recognize|synth|create speak]; run; eauto 10.
    destruct (speak _ _ _) as [msg|content]; run; eauto 10.
Qed.

(** X22. [speech_to_text] and [text_to_speech] never raise, whatever the
    client, the provider string and the provider's behaviour: they return
    after at most one provider call, and when an error was printed the
    answer is [None]. *)
Theorem voice_bridge_never_raises c audio text provider lang voice w :
  (∃ r w', speech_to_text pydub c audio provider lang w = (Ok r, w') ∧
           (invoked w' = invoked w ∨ ∃ call, invoked w' = invoked w ++ [call]) ∧
           (stdout w' = stdout w ∨ r = None)) ∧
  (∃ r w', text_to_speech c text provider lang voice w = (Ok r, w') ∧
           (invoked w' = invoked w ∨ ∃ call, invoked w' = invoked w ++ [call]) ∧
           (stdout w' = stdout w ∨ r = None)).
Proof. split; [apply speech_to_text_outcome|apply text_to_speech_outcome]. Qed.

(** X23. A client that is [None], or of the other provider, gives
    [None] and no provider call: looking up the method raises inside the
    guarded block. *)
Theorem missing_or_foreign_client_gives_none recognize create speak audio text lang voice w :
  (∀ provider,
     fst (speech_to_text pydub NoClient audio provider lang w) = Ok None ∧
     invoked (snd (speech_to_text pydub NoClient audio provider lang w)) = invoked w ∧
     fst (text_to_speech NoClient text provider lang voice w) = Ok None ∧
     invoked (snd (text_to_speech NoClient text provider lang voice w)) = invoked w) ∧
  fst (speech_to_text pydub (SpeechClient recognize) audio "openai" lang w) = Ok None ∧
  invoked (snd (speech_to_text pydub (SpeechClient recognize) audio "openai" lang w))
  = invoked w ∧
  fst (speech_to_text pydub (OpenAIClient create speak) audio "google" lang w) = Ok None ∧
  invoked (snd (speech_to_text pydub (OpenAIClient create speak) audio "google" lang w))
  = invoked w.
Proof.
  split_and!.
  - intros provider. unfold speech_to_text, text_to_speech.
    destruct (decide (provider = "google")); [|destruct (decide (provider = "openai"))];
      unfold _google_stt, _openai_stt, _google_tts, _openai_tts, get_recognize,
        get_audio_transcriptions, get_synthesize_speech, get_audio_speech, print; run;
      try done; by destruct (pydub audio).
  - unfold speech_to_text, _openai_stt, get_audio_transcriptions, print.
    rewrite decide_False, decide_True by done. by run.
  - unfold speech_to_text, _openai_stt, get_audio_transcriptions, print.
    rewrite decide_False, decide_True by done. by run.
  - unfold speech_to_text, _google_stt, get_recognize, print.
    rewrite decide_True by done. run. by destruct (pydub audio).
  - unfold speech_to_text, _google_stt, get_recognize, print.
    rewrite decide_True by done. run. by destruct (pydub audio).
Qed.

End VoiceBridgeGeneral.

(** ** The chat page *)

Section ChatPage.
Import UiStreamlit.
Context (pydub : bytes → string + bytes).
Context (requests_post : list post → post → string + chat_json).
Context (speech_client tts_client openai_client : SttTts.client).

Local Arguments SttTts.speech_to_text : simpl never.
Local Arguments SttTts.text_to_speech : simpl never.
Local Arguments show_citations : simpl never.
Local Arguments speak_answer : simpl never.

(** A call into the bridge returns and touches only the bridge's world. *)
Lemma bridge_speech_to_text c audio provider lang w :
  ∃ r v, bridge (SttTts.speech_to_text pydub c audio provider lang) w = (Ok r, set_voice v w) ∧
         SttTts.speech_to_text pydub c audio provider lang (voice w) = (Ok r, v).
Proof.
  destruct (speech_to_text_outcome pydub c audio provider lang (voice w))
    as (r & v & Hrun & _).
  exists r, v. unfold bridge. by rewrite Hrun.
Qed.

Lemma bridge_text_to_speech c text provider lang voice_name w :
  ∃ r v, bridge (SttTts.text_to_speech c text provider lang voice_name) w
         = (Ok r, set_voice v w) ∧
         SttTts.text_to_speech c text provider lang voice_name (voice w) = (Ok r, v).
Proof.
  destruct (text_to_speech_outcome c text provider lang voice_name (voice w))
    as (r & v & Hrun & _).
  exists r, v. unfold bridge. by rewrite Hrun.
Qed.

(** A prompt that came from a recording was stored as the last one. *)
Lemma voice_prompt_is_remembered text_prompt audio stt_provider lang w t w1 :
  choose_prompt pydub speech_client openai_client text_prompt (Some audio) stt_provider lang w
  = (Ok (Some t, true), w1) →
  client_truthy speech_client = true ∧ last_audio_bytes w1 = Some (Some audio).
Proof.
  unfold choose_prompt, st.
  destruct (nonempty_str text_prompt); [by run|].
  destruct (client_truthy speech_client); [|by run].
  intros Hrun. split; [done|]. revert Hrun. run.
  assert (Hstep : ∀ w0,
    (let (r, s') :=
       bridge (SttTts.speech_to_text pydub
                 (match stt_provider with Google => speech_client | OpenAI => openai_client end)
                 audio (provider_code stt_provider)
                 (if decide (lang = "zh-TW") then "cmn-Hant-TW" else "en-US")) w0 in
     match r with
     | Ok a =>
         match nonempty_str a with
         | Some text =>
             λ s0 : world, (Ok (Some text, true), set_last_audio_bytes (Some audio) s0)
         | None =>
             λ s0 : world, (Ok (None, false), render (st_warning "無法辨識語音，請重試。") s0)
         end s'
     | Raise e => (Raise e, s')
     end) = (Ok (Some t, true), w1) → last_audio_bytes w1 = Some (Some audio)).
  { intros w0.
    destruct (bridge_speech_to_text
                (match stt_provider with Google => speech_client | OpenAI => openai_client end)
                audio (provider_code stt_provider)
                (if decide (lang = "zh-TW") then "cmn-Hant-TW" else "en-US") w0)
      as (r & v & -> & _).
    destruct (nonempty_str r); [|done]. by intros [= _ <-]. }
  destruct (last_audio_bytes w) as [last|] eqn:Hw; run.
  - rewrite ?Hw. destruct (decide (Some (Some audio) ≠ _)); [apply Hstep|done].
  - destruct (decide (Some (Some audio) ≠ _)); [apply Hstep|done].
Qed.

(** X24. A recording that gave a prompt is not transcribed again: while
    the widget keeps delivering the same bytes and no text is entered, a
    run gives no prompt, calls no provider and changes nothing. *)
Theorem same_recording_is_transcribed_once text_prompt audio stt_provider lang
    stt_provider' lang' w t w1 :
  nonempty_str text_prompt = None →
  choose_prompt pydub speech_client openai_client text_prompt (Some audio) stt_provider lang w
  = (Ok (Some t, true), w1) →
  choose_prompt pydub speech_client openai_client text_prompt (Some audio) stt_provider' lang'
    w1
  = (Ok (None, false), w1).
Proof.
  intros Htext Hfirst.
  apply voice_prompt_is_remembered in Hfirst as [Hclient Hlast].
  unfold choose_prompt. rewrite Htext, Hclient. run. rewrite Hlast. run.
  by rewrite decide_False by (intros Hne; by apply Hne).
Qed.

(** X25. A recording that the provider does not recognise (the bridge
    answers [None] or the empty text) gives no prompt and a warning, and
    is not stored as processed: the next run with the same bytes sends it
    to the provider again. *)
Theorem unrecognised_recording_is_retried text_prompt audio stt_provider lang w r v :
  nonempty_str text_prompt = None →
  client_truthy speech_client = true →
  last_audio_bytes w ≠ Some (Some audio) →
  SttTts.speech_to_text pydub
    (match stt_provider with Google => speech_client | OpenAI => openai_client end)
    audio (provider_code stt_provider)
    (if decide (lang = "zh-TW") then "cmn-Hant-TW" else "en-US") (voice w) = (Ok r, v) →
  nonempty_str r = None →
  ∃ w', choose_prompt pydub speech_client openai_client text_prompt (Some audio) stt_provider
          lang w = (Ok (None, false), w') ∧
        voice w' = v ∧
        page w' = page w ++ [st_warning "無法辨識語音，請重試。"] ∧
        last_audio_bytes w' ≠ Some (Some audio) ∧
        history w' = history w.
Proof.
  intros Htext Hclient Hlast Hstt Hr.
  unfold choose_prompt, st, bridge. rewrite Htext, Hclient. run.
  destruct (last_audio_bytes w) as [last|] eqn:Hw; run.
  - rewrite decide_True by (intros Heq; apply Hlast; by rewrite Heq).
    rewrite Hstt. run. rewrite Hr. run. eexists. split; [done|]. cbn. by rewrite Hw.
  - rewrite decide_True by done.
    change (voice (set_last_audio_bytes None w)) with (voice w).
    rewrite Hstt. run. rewrite Hr. run. eexists. split; [done|]. cbn. done.
Qed.

(** Showing one citation returns and touches only the page. *)
Lemma show_citation_outcome c w :
  ∃ shown, show_citation c w
           = (Ok tt, World (voice w) (last_audio_bytes w) (history w) (page w ++ shown)
                       (posts w)).
Proof.
  unfold show_citation, st. run.
  destruct w, (nonempty_str (quote c)); run; unfold render; cbn;
    rewrite <- ?app_assoc; eauto.
Qed.

(** Showing the citations returns and touches only the page. *)
Lemma show_citations_outcome cs w :
  ∃ shown, for_each cs show_citation w
           = (Ok tt, World (voice w) (last_audio_bytes w) (history w) (page w ++ shown)
                       (posts w)).
Proof.
  revert w. induction cs as [|c cs IH]; intros w.
  - exists []. destruct w. cbn. by rewrite app_nil_r.
  - cbn [for_each]. unfold mbind, prog_bind.
    destruct (show_citation_outcome c w) as (shown & ->).
    destruct (IH (World (voice w) (last_audio_bytes w) (history w) (page w ++ shown)
                    (posts w))) as (shown' & ->).
    cbn. rewrite <- app_assoc. eauto.
Qed.

(** The citations block returns and touches only the page. *)
Lemma show_citations_block cs w :
  ∃ shown, show_citations cs w
           = (Ok tt, World (voice w) (last_audio_bytes w) (history w) (page w ++ shown)
                       (posts w)).
Proof.
  unfold show_citations. destruct cs as [|c cs].
  - exists []. destruct w. cbn. by rewrite app_nil_r.
  - unfold st, mbind, prog_bind, modify.
    destruct (show_citations_outcome (c :: cs) (render (st_markdown "#### 引用") w))
      as (shown & ->).
    cbn. rewrite <- app_assoc. eauto.
Qed.

(** Speaking the answer returns and touches only the bridge and the page;
    the bridge is entered only when all three conditions hold. *)
Lemma speak_answer_outcome text enable stt_provider lang w :
  ∃ tts v shown,
    speak_answer tts_client openai_client text enable stt_provider lang w
    = (Ok tts, World v (last_audio_bytes w) (history w) (page w ++ shown) (posts w)) ∧
    (enable && negb (bool_decide (text = ""))
     && client_truthy (match stt_provider with
                       | Google => tts_client | OpenAI => openai_client end) = false →
     tts = None ∧ v = voice w ∧ shown = []).
Proof.
  unfold speak_answer.
  assert (Hnone : ∃ (tts : option bytes) v shown,
    (Ok None, w) = (Ok tts, World v (last_audio_bytes w) (history w) (page w ++ shown)
                              (posts w)) ∧ tts = None ∧ v = voice w ∧ shown = []).
  { exists None, (voice w), []. destruct w. cbn. by rewrite app_nil_r. }
  destruct Hnone as (tts0 & v0 & shown0 & Hnone & Htts0 & Hv0 & Hshown0).
  destruct (enable && negb (bool_decide (text = ""))); cbn;
    [destruct (client_truthy _); cbn|]; [|by exists tts0, v0, shown0..].
  unfold mbind, prog_bind.
  match goal with |- context [bridge (SttTts.text_to_speech ?c ?t ?p ?l ?vn) ?w0] =>
    destruct (bridge_text_to_speech c t p l vn w0) as (r & v & -> & _) end.
  destruct w. unfold st. run.
  destruct (bytes_truthy r); cbn; eexists r, v, _;
    (split; [|done]); [reflexivity|by rewrite app_nil_r].
Qed.

(** What [handle_prompt] does when the endpoint answered: it returns, the
    history gains the prompt and the answer (or the placeholder), the page
    gains the prompt, the answer and what follows, and the bridge is not
    entered unless the answer is to be spoken. *)
Lemma handle_prompt_answered final_prompt project_id user_id api_base enable
    stt_provider lang w data :
  let request := Post (api_base +:+ "/chat")
                   {| UiStreamlit.project_id := project_id; message := final_prompt;
                      UiStreamlit.user_id := user_id |} 60 in
  let content := or_else (answer data) "(無回覆)" in
  let speaks := enable && negb (bool_decide (or_else (answer data) "" = ""))
                && client_truthy (match stt_provider with
                                  | Google => tts_client | OpenAI => openai_client end) in
  requests_post (posts w) request = inr data →
  ∃ shown tts v,
    handle_prompt requests_post tts_client openai_client final_prompt project_id user_id
      api_base enable stt_provider lang w
    = (Ok tt,
       World v (last_audio_bytes w)
         (history w ++ [HistoryItem "user" final_prompt None;
                        HistoryItem "assistant" content tts])
         (page w ++ st_markdown final_prompt :: st_markdown content :: shown)
         (posts w ++ [request])) ∧
    (speaks = false → tts = None ∧ v = voice w).
Proof.
  intros request content speaks Hreq. subst request content speaks.
  destruct w as [vo la hi pg ps]. cbn in Hreq.
  unfold handle_prompt, st. run. rewrite Hreq. run.
  match goal with |- context [show_citations ?cs ?w0] =>
    destruct (show_citations_block cs w0) as (sh1 & ->) end.
  cbn.
  match goal with |- context [speak_answer ?a ?b ?c ?d ?e ?f ?w0] =>
    destruct (speak_answer_outcome c d e f w0) as (tts & v & sh2 & -> & Hquiet) end.
  cbn. rewrite <- !app_assoc. cbn. eexists _, tts, v.
  split; [unfold history_append; cbn; rewrite <- app_assoc; reflexivity|].
  intros Hoff. by destruct (Hquiet Hoff) as (-> & -> & _).
Qed.

(** X26. [handle_prompt] never raises, sends exactly one request to the
    endpoint, and adds exactly two entries to the history, the user's
    prompt and one assistant entry, whether the endpoint answered or not;
    it does not touch [last_audio_bytes]. *)
Theorem handle_prompt_adds_two_entries final_prompt project_id user_id api_base enable
    stt_provider lang w :
  ∃ w' reply,
    handle_prompt requests_post tts_client openai_client final_prompt project_id user_id
      api_base enable stt_provider lang w = (Ok tt, w') ∧
    history w' = history w ++ [HistoryItem "user" final_prompt None; reply] ∧
    role reply = "assistant" ∧
    posts w'
    = posts w ++ [Post (api_base +:+ "/chat")
                    {| UiStreamlit.project_id := project_id; message := final_prompt;
                       UiStreamlit.user_id := user_id |} 60] ∧
    last_audio_bytes w' = last_audio_bytes w.
Proof.
  destruct (requests_post (posts w)
              (Post (api_base +:+ "/chat")
                 {| UiStreamlit.project_id := project_id; message := final_prompt;
                    UiStreamlit.user_id := user_id |} 60)) as [msg|data] eqn:Hreq.
  - destruct w as [vo la hi pg ps]. cbn in Hreq.
    unfold handle_prompt, st. run. rewrite Hreq. run.
    eexists _, _. split; [reflexivity|]. cbn. rewrite <- app_assoc. done.
  - destruct (handle_prompt_answered final_prompt project_id user_id api_base enable
                stt_provider lang w data Hreq) as (shown & tts & v & -> & _).
    eexists _, _. split; [reflexivity|]. done.
Qed.

(** X27. When the request to the endpoint raises, the page shows the
    error and keeps it as the assistant's entry; nothing is spoken. *)
Theorem failed_request_is_kept_in_history final_prompt project_id user_id api_base enable
    stt_provider lang w msg :
  requests_post (posts w)
    (Post (api_base +:+ "/chat")
       {| UiStreamlit.project_id := project_id; message := final_prompt;
          UiStreamlit.user_id := user_id |} 60) = inl msg →
  handle_prompt requests_post tts_client openai_client final_prompt project_id user_id
    api_base enable stt_provider lang w
  = (Ok tt,
     World (voice w) (last_audio_bytes w)
       (history w ++ [HistoryItem "user" final_prompt None;
                      HistoryItem "assistant" ("API 呼叫失敗：" +:+ msg) None])
       (page w ++ [st_markdown final_prompt; st_error ("API 呼叫失敗：" +:+ msg)])
       (posts w ++ [Post (api_base +:+ "/chat")
                      {| UiStreamlit.project_id := project_id; message := final_prompt;
                         UiStreamlit.user_id := user_id |} 60])).
Proof.
  intros Hfail. destruct w as [vo la hi pg ps]. cbn in Hfail.
  unfold handle_prompt, st. run. rewrite Hfail. run.
  unfold history_append, render; cbn. by rewrite <- !app_assoc.
Qed.

(** X28. The answer is spoken only when voice output is enabled and the
    client of the chosen provider exists: otherwise [handle_prompt] makes
    no provider call and no entry that it adds carries audio. *)
Theorem no_speech_unless_enabled final_prompt project_id user_id api_base enable
    stt_provider lang w :
  enable = false ∨
  client_truthy (match stt_provider with Google => tts_client | OpenAI => openai_client end)
  = false →
  voice (snd (handle_prompt requests_post tts_client openai_client final_prompt project_id
                user_id api_base enable stt_provider lang w))
  = voice w ∧
  Forall (λ m, audio m = None)
    (drop (length (history w))
       (history (snd (handle_prompt requests_post tts_client openai_client final_prompt
                        project_id user_id api_base enable stt_provider lang w)))).
Proof.
  intros Hoff.
  destruct (requests_post (posts w)
              (Post (api_base +:+ "/chat")
                 {| UiStreamlit.project_id := project_id; message := final_prompt;
                    UiStreamlit.user_id := user_id |} 60)) as [msg|data] eqn:Hreq.
  - destruct w as [vo la hi pg ps]. cbn in Hreq.
    unfold handle_prompt, st. run. rewrite Hreq. run.
    split; [done|]. rewrite <- app_assoc, drop_app_length. by repeat constructor.
  - destruct (handle_prompt_answered final_prompt project_id user_id api_base enable
                stt_provider lang w data Hreq) as (shown & tts & v & -> & Hquiet).
    destruct Hquiet as [-> ->].
    { destruct Hoff as [->| ->]; [done|by rewrite andb_false_r]. }
    cbn. split; [done|]. rewrite drop_app_length. by repeat constructor.
Qed.

End ChatPage.

(** ** The general properties on the scenario *)

Lemma console_keeps_schema_example :
  Schema.schema_ok
    (App.conn (snd (@App.sidebar_create Scenario.runtime Scenario.service "Gemini" true
                      Scenario.stocked))) ∧
  Schema.schema_ok
    (App.conn (snd (@App.sidebar_edit Scenario.runtime "Apollo 2" true false false
                      Scenario.stocked))) ∧
  Schema.schema_ok
    (App.conn (snd (@App.main Scenario.runtime Scenario.service [Scenario.prd_copy] false true
                      "file-0" true true true true Scenario.stocked))).
Proof.
  apply (@console_keeps_schema Scenario.runtime Scenario.service "Gemini" true "Apollo 2" true
           false false [Scenario.prd_copy] false true "file-0" true true true true
           Scenario.stocked).
  unfold Schema.schema_ok, Schema.project_ids_unique, unique_binding, Schema.file_keys_unique.
  cbn. split_and!; apply NoDup_singleton.
Defined.

Lemma add_then_remove_example :
  App.conn (snd (App.db_remove_project_file "p-apollo" "file-7"
                   (snd (@App.db_add_project_file Scenario.runtime "p-apollo" "file-7"
                           "notes.pdf" None Scenario.stocked))))
  = App.conn Scenario.stocked.
Proof.
  apply (@add_then_remove Scenario.runtime "p-apollo" "file-7" "notes.pdf" None
           Scenario.stocked).
  intros (r & Hin & _ & Hf)%elem_of_local_file_ids. cbn in Hin.
  apply list_elem_of_singleton in Hin as ->. discriminate.
Defined.

Lemma created_project_resolves_example :
  fst (App.project_by_id "uuid-0"
         (snd (@App.db_create_project Scenario.runtime "Acme" "vs_0" Scenario.fresh)))
  = Ok (Project "uuid-0" "Acme" "vs_0" "active" "2026-01-01T00:00:0" "2026-01-01T00:00:0") ∧
  @ApiServer.get_vector_store_id Scenario.runtime "uuid-0"
    (ApiServer.World
       (Some (App.conn (snd (@App.db_create_project Scenario.runtime "Acme" "vs_0"
                               Scenario.fresh)))) [])
  = (Ok "vs_0",
     ApiServer.World
       (Some (App.conn (snd (@App.db_create_project Scenario.runtime "Acme" "vs_0"
                               Scenario.fresh)))) []).
Proof.
  apply (@created_project_resolves Scenario.runtime "Acme" "vs_0" Scenario.fresh "uuid-0"
           (snd (@App.db_create_project Scenario.runtime "Acme" "vs_0" Scenario.fresh)) []).
  - reflexivity.
  - discriminate.
Defined.

Lemma failed_registration_leaves_the_upload_example :
  @App.upload_one Scenario.runtime Scenario.index_outage "p-apollo" "idx-2" true Scenario.prd
    Scenario.fresh
  = (Ok tt,
     App.World Catalog.empty
       [OpenAI.files_create "PRD_v1.2.pdf" ["%"; "P"; "D"; "F"]%byte "assistants";
        OpenAI.vector_stores_file_batches_create "idx-2" ["file-0"]]
       0 0 [App.st_error "❌ PRD_v1.2.pdf 失敗：Vector store not found."] None).
Proof.
  apply (@failed_registration_leaves_the_upload Scenario.runtime Scenario.index_outage
           "p-apollo" "idx-2" true Scenario.prd Scenario.fresh "file-0"
           "Vector store not found.").
  - right. reflexivity.
  - reflexivity.
  - reflexivity.
Defined.

Lemma upload_without_dedup_adds_a_row_example :
  length (rows_with_sha "p-apollo" "sha256:%PDF"
            (App.conn (snd (@App.tab_upload Scenario.runtime Scenario.service "p-apollo"
                              "idx-2" [Scenario.prd] false true Scenario.doubled))))
  = S (length (rows_with_sha "p-apollo" "sha256:%PDF" (App.conn Scenario.doubled))).
Proof.
  apply (@upload_without_dedup_adds_a_row Scenario.runtime Scenario.service "p-apollo" "idx-2"
           Scenario.prd Scenario.doubled "file-4").
  - reflexivity.
  - reflexivity.
  - intros (r & Hin & _ & Hf)%elem_of_local_file_ids. vm_compute in Hin.
    apply elem_of_cons in Hin as [->|Hin]; [discriminate|].
    apply elem_of_cons in Hin as [->|Hin]; [discriminate|].
    by apply elem_of_nil in Hin.
Defined.

Lemma remove_needs_confirmation_example :
  ∃ w', @App.tab_list Scenario.runtime Scenario.service "p-apollo" "idx-2" "file-0" false true
          Scenario.stocked = (Ok tt, w') ∧
        App.calls w' = App.calls Scenario.stocked ∧ App.conn w' = App.conn Scenario.stocked.
Proof.
  apply (@remove_needs_confirmation Scenario.runtime Scenario.service "p-apollo" "idx-2"
           "file-0" false true Scenario.stocked).
  left. reflexivity.
Defined.

Lemma confirmed_removal_example :
  fst (@App.tab_list Scenario.runtime Scenario.service "p-apollo" "idx-2" "file-0" true true
         Scenario.stocked) = Raise RerunException ∧
  App.calls (snd (@App.tab_list Scenario.runtime Scenario.service "p-apollo" "idx-2" "file-0"
                    true true Scenario.stocked))
  = App.calls Scenario.stocked ++ [OpenAI.vector_stores_files_delete "idx-2" "file-0"] ∧
  App.local_file_ids
    (select_project_files "p-apollo"
       (App.conn (snd (@App.tab_list Scenario.runtime Scenario.service "p-apollo" "idx-2"
                         "file-0" true true Scenario.stocked))))
  = App.local_file_ids (select_project_files "p-apollo" (App.conn Scenario.stocked))
    ∖ {["file-0"]}.
Proof.
  apply (@confirmed_removal Scenario.runtime Scenario.service "p-apollo" "idx-2" "file-0"
           Scenario.stocked).
  - discriminate.
  - reflexivity.
Defined.

Lemma main_needs_a_known_project_example :
  (fst (@App.main Scenario.runtime Scenario.service [Scenario.prd] true true "file-0" true
          true true true Scenario.stale) = Raise StopException ∨
   fst (@App.main Scenario.runtime Scenario.service [Scenario.prd] true true "file-0" true
          true true true Scenario.stale) = Raise (IndexError "list index out of range")) ∧
  App.conn (snd (@App.main Scenario.runtime Scenario.service [Scenario.prd] true true "file-0"
                   true true true true Scenario.stale)) = App.conn Scenario.stale ∧
  App.calls (snd (@App.main Scenario.runtime Scenario.service [Scenario.prd] true true
                    "file-0" true true true true Scenario.stale)) = App.calls Scenario.stale.
Proof.
  apply (@main_needs_a_known_project Scenario.runtime Scenario.service [Scenario.prd] true true
           "file-0" true true true true Scenario.stale).
  intros p Hp. cbn in Hp. apply list_elem_of_singleton in Hp as ->. discriminate.
Defined.

Lemma chat_gateway_failure_example :
  @ApiServer.chat Scenario.runtime Scenario.outage Scenario.question Scenario.served
  = (Raise (HTTPException 500 "OpenAI call failed: Connection error."),
     ApiServer.World (Some (Database [Scenario.acme; Scenario.apollo] []))
       [OpenAI.responses_create (@ApiServer.OPENAI_MODEL Scenario.runtime)
          ApiServer.INSTRUCTIONS
          "請列出目前專案 Top 3 風險並附引用" ["idx-2"]]).
Proof.
  apply (@chat_gateway_failure Scenario.runtime Scenario.outage
           (Database [Scenario.acme; Scenario.apollo] []) [] Scenario.question
           _ _ "Connection error.").
  - reflexivity.
  - reflexivity.
Defined.

Lemma chat_searches_the_projects_store_example :
  ∃ db p,
    ApiServer.db_file Scenario.served = Some db ∧ p ∈ projects db ∧
    Catalog.project_id p = "p-apollo" ∧ status p = "active" ∧ vector_store_id p ≠ "" ∧
    ApiServer.calls
      (snd (@ApiServer.chat Scenario.runtime Scenario.service Scenario.question
              Scenario.served))
    = ApiServer.calls Scenario.served
      ++ [OpenAI.responses_create (@ApiServer.OPENAI_MODEL Scenario.runtime)
          ApiServer.INSTRUCTIONS
            "請列出目前專案 Top 3 風險並附引用" [vector_store_id p]].
Proof.
  apply (@chat_searches_the_projects_store Scenario.runtime Scenario.service Scenario.question
           Scenario.served {| ApiServer.answer := "文件未提供"; ApiServer.citations := [] |}
           (snd (@ApiServer.chat Scenario.runtime Scenario.service Scenario.question
                   Scenario.served))).
  vm_compute. reflexivity.
Defined.

Lemma google_transcript_joins_first_alternatives_example :
  fst (SttTts.speech_to_text Scenario.pcm Scenario.google_heard Scenario.recording "google"
         "cmn-Hant-TW" Scenario.quiet)
  = Ok (Some "目前專案 有哪些風險").
Proof.
  apply (google_transcript_joins_first_alternatives Scenario.pcm Scenario.hears
           Scenario.recording Scenario.recording "cmn-Hant-TW" Scenario.heard Scenario.quiet).
  - reflexivity.
  - reflexivity.
  - discriminate.
Defined.

Lemma same_recording_is_transcribed_once_example :
  UiStreamlit.choose_prompt Scenario.pcm Scenario.google_heard SttTts.NoClient None
    (Some Scenario.recording) UiStreamlit.OpenAI "en-US" Scenario.heard_once
  = (Ok (None, false), Scenario.heard_once).
Proof.
  apply (same_recording_is_transcribed_once Scenario.pcm Scenario.google_heard SttTts.NoClient
           None Scenario.recording UiStreamlit.Google "zh-TW" UiStreamlit.OpenAI "en-US"
           Scenario.session "目前專案 有哪些風險" Scenario.heard_once).
  - reflexivity.
  - vm_compute. reflexivity.
Defined.

Lemma unrecognised_recording_is_retried_example :
  ∃ w',
    UiStreamlit.choose_prompt Scenario.pcm Scenario.google_silence SttTts.NoClient None
      (Some Scenario.recording) UiStreamlit.Google "zh-TW" Scenario.session
    = (Ok (None, false), w') ∧
    UiStreamlit.voice w'
    = snd (SttTts.speech_to_text Scenario.pcm Scenario.google_silence Scenario.recording
             "google" "cmn-Hant-TW" Scenario.quiet) ∧
    UiStreamlit.page w'
    = UiStreamlit.page Scenario.session ++ [UiStreamlit.st_warning "無法辨識語音，請重試。"] ∧
    UiStreamlit.last_audio_bytes w' ≠ Some (Some Scenario.recording) ∧
    UiStreamlit.history w' = UiStreamlit.history Scenario.session.
Proof.
  apply (unrecognised_recording_is_retried Scenario.pcm Scenario.google_silence SttTts.NoClient
           None Scenario.recording UiStreamlit.Google "zh-TW" Scenario.session None).
  - reflexivity.
  - reflexivity.
  - discriminate.
  - reflexivity.
  - reflexivity.
Defined.

Lemma failed_request_is_kept_in_history_example :
  UiStreamlit.handle_prompt Scenario.endpoint_down Scenario.google_voice SttTts.NoClient
    "有哪些風險" "p-apollo" "test-user-001" "http://127.0.0.1:8000" true UiStreamlit.Google
    "zh-TW" Scenario.session
  = (Ok tt,
     UiStreamlit.World Scenario.quiet None
       [UiStreamlit.HistoryItem "user" "有哪些風險" None;
        UiStreamlit.HistoryItem "assistant" "API 呼叫失敗：Connection refused" None]
       [UiStreamlit.st_markdown "有哪些風險";
        UiStreamlit.st_error "API 呼叫失敗：Connection refused"]
       [UiStreamlit.Post "http://127.0.0.1:8000/chat"
          {| UiStreamlit.project_id := "p-apollo"; UiStreamlit.message := "有哪些風險";
             UiStreamlit.user_id := "test-user-001" |} 60]).
Proof.
  apply (failed_request_is_kept_in_history Scenario.endpoint_down Scenario.google_voice
           SttTts.NoClient "有哪些風險" "p-apollo" "test-user-001" "http://127.0.0.1:8000" true
           UiStreamlit.Google "zh-TW" Scenario.session "Connection refused").
  reflexivity.
Defined.

Lemma no_speech_unless_enabled_example :
  UiStreamlit.voice
    (snd (UiStreamlit.handle_prompt Scenario.endpoint Scenario.google_voice SttTts.NoClient
            "有哪些風險" "p-apollo" "test-user-001" "http://127.0.0.1:8000" false
            UiStreamlit.Google "zh-TW" Scenario.session))
  = UiStreamlit.voice Scenario.session ∧
  Forall (λ m, UiStreamlit.audio m = None)
    (drop (length (UiStreamlit.history Scenario.session))
       (UiStreamlit.history
          (snd (UiStreamlit.handle_prompt Scenario.endpoint Scenario.google_voice
                  SttTts.NoClient "有哪些風險" "p-apollo" "test-user-001"
                  "http://127.0.0.1:8000" false UiStreamlit.Google "zh-TW"
                  Scenario.session)))).
Proof.
  apply (no_speech_unless_enabled Scenario.endpoint Scenario.google_voice SttTts.NoClient
           "有哪些風險" "p-apollo" "test-user-001" "http://127.0.0.1:8000" false
           UiStreamlit.Google "zh-TW" Scenario.session).
  left. reflexivity.
Defined.

(** The chat page, run: a recording becomes the prompt, the endpoint's
    answer and its citation are shown, the answer is spoken, and both
    entries are kept. *)
Example voice_question_is_answered_aloud :
  UiStreamlit.script Scenario.pcm Scenario.endpoint Scenario.google_heard
    Scenario.google_voice SttTts.NoClient None (Some Scenario.recording) "p-apollo"
    "test-user-001" "http://127.0.0.1:8000" true UiStreamlit.Google "zh-TW" Scenario.session
  = (Ok tt,
     UiStreamlit.World
       (SttTts.World
          [SttTts.recognize_call
             {| SttTts.encoding := "LINEAR16"; SttTts.sample_rate_hertz := 16000;
                SttTts.language_code := "cmn-Hant-TW";
                SttTts.enable_automatic_punctuation := true |} Scenario.recording;
           SttTts.synthesize_speech_call "文件未提供"
             {| SttTts.voice_language_code := "zh-TW"; SttTts.voice_name := None |} "MP3"]
          [])
       (Some (Some Scenario.recording))
       [UiStreamlit.HistoryItem "user" "目前專案 有哪些風險" None;
        UiStreamlit.HistoryItem "assistant" "文件未提供" (Some ["I"; "D"; "3"]%byte)]
       [UiStreamlit.st_markdown "目前專案 有哪些風險"; UiStreamlit.st_markdown "文件未提供";
        UiStreamlit.st_markdown "#### 引用"; UiStreamlit.st_markdown "- PRD_v1.2.pdf（p.3）";
        UiStreamlit.st_audio ["I"; "D"; "3"]%byte]
       [UiStreamlit.Post "http://127.0.0.1:8000/chat"
          {| UiStreamlit.project_id := "p-apollo";
             UiStreamlit.message := "目前專案 有哪些風險";
             UiStreamlit.user_id := "test-user-001" |} 60]).
Proof. vm_compute. reflexivity. Qed.
